(** * Geometry values, kind constraints and JSON Schema fragments

    A shallow embedding of [overture_schema_pydantic/geometry.py]: the
    [Geometry] wrapper, [GeometryTypeConstraint] and the table of JSON
    Schema fragments, with the properties stated about them. *)

From Stdlib Require Import ZArith QArith Qcanon OrderedTypeEx.
From stdpp Require Import base decidable option list strings sorting numbers.

Set Warnings "-register-all".

Local Open Scope string_scope.
Local Open Scope list_scope.

(** ** Python values *)

(** Coordinates are Python numbers compared with [==]; a float is modelled
    by the rational it denotes, so that [1 == 1.0] is plain equality. *)
Definition num := Qc.

Definition float_of_int (z : Z) : num := Q2Qc (inject_Z z).

(** A coordinate tuple. *)
Definition Position := list num.

(** Modelled from the spec: the shapes of [shapely.geometry], a library
    outside the repository; "a value wrapping exactly one concrete shape
    (one GeometryKind and its associated coordinate/child data)"
    (section 3), one constructor per kind. *)
Inductive BaseGeometry :=
| Point (c : Position)
| LineString (cs : list Position)
| Polygon (rings : list (list Position))
| MultiPoint (cs : list Position)
| MultiLineString (ls : list (list Position))
| MultiPolygon (ps : list (list (list Position)))
| GeometryCollection (geoms : list BaseGeometry).

(** [class Geometry]: the only instance attribute is [geom]. *)
Record Geometry := mkGeometry { geom : BaseGeometry }.

(** The values that flow through the module: JSON-like data and instances
    of [Geometry].  A dict is kept as its list of items in insertion
    order. *)
Inductive PyVal :=
| PNone
| PBool (b : bool)
| PInt (z : Z)
| PFloat (x : num)
| PStr (s : string)
| PList (l : list PyVal)
| PTuple (l : list PyVal)
| PDict (d : list (string * PyVal))
| PGeom (g : Geometry).

(** [type(v).__name__] *)
Definition type_name (v : PyVal) : string :=
  match v with
  | PNone => "NoneType"
  | PBool _ => "bool"
  | PInt _ => "int"
  | PFloat _ => "float"
  | PStr _ => "str"
  | PList _ => "list"
  | PTuple _ => "tuple"
  | PDict _ => "dict"
  | PGeom _ => "Geometry"
  end.

(** Truth value of an object, as tested by [if x:] and [x or y]. *)
Definition truthy (v : PyVal) : bool :=
  match v with
  | PNone => false
  | PBool b => b
  | PInt z => negb (z =? 0)%Z
  | PFloat x => negb (Qeq_bool (this x) 0)
  | PStr s => negb (String.eqb s "")
  | PList l | PTuple l => negb (Nat.eqb (length l) 0)
  | PDict d => negb (Nat.eqb (length d) 0)
  | PGeom _ => true
  end.

(** [d.get(k)], [None] when the key is absent. *)
Fixpoint dict_get (d : list (string * PyVal)) (k : string) : option PyVal :=
  match d with
  | [] => None
  | (k', v) :: d' => if String.eqb k' k then Some v else dict_get d' k
  end.

(** [x in t] for a tuple [t] of strings: only a [str] compares equal to a
    [str]. *)
Definition in_str_tuple (v : PyVal) (t : list string) : bool :=
  match v with
  | PStr s => bool_decide (s ∈ t)
  | _ => false
  end.

(** ** Exceptions *)

(** The pieces of an f-string: literal text and formatted values, the
    latter kept as the value and its conversion. *)
Inductive FPart :=
| FLit (s : string)
| FRepr (v : PyVal).

Definition fstring := list FPart.

Inductive ExcClass := TypeError | ValueError | KeyError | IndexError | AttributeError.

(** A built-in exception raised with one message argument. *)
Record BuiltinExc := mkExc { exc_class : ExcClass; exc_msg : fstring }.

(** [str(e)]: the message argument ([KeyError] carries the [repr] of the
    key as its message part already). *)
Definition exc_str (e : BuiltinExc) : fstring := exc_msg e.

(** [pydantic_core.InitErrorDetails] *)
Record InitErrorDetails := mkDetails {
  ied_type : string;
  ied_loc : list PyVal;
  ied_input : PyVal;
  ied_ctx : list (string * fstring)
}.

(** [pydantic.ValidationError.from_exception_data(title, line_errors)] *)
Record ValidationErr := mkValidationErr {
  ve_title : string;
  ve_line_errors : list InitErrorDetails
}.

Inductive Exception :=
| Builtin (e : BuiltinExc)
| ValidationError (e : ValidationErr).

(** The outcome of a call: a returned value or a raised exception. *)
Inductive Outcome (E A : Type) :=
| Returns (a : A)
| Raises (e : E).
Arguments Returns {E A} a.
Arguments Raises {E A} e.

Definition bind {E A B} (m : Outcome E A) (k : A → Outcome E B) : Outcome E B :=
  match m with
  | Returns a => k a
  | Raises e => Raises e
  end.

Notation "x ←! m ; k" := (bind m (fun x => k))
  (at level 20, m at level 100, k at level 200, right associativity, only parsing).

(** Re-raising a built-in exception where any exception may travel. *)
Definition lift_exc {A} (m : Outcome BuiltinExc A) : Outcome Exception A :=
  match m with
  | Returns a => Returns a
  | Raises e => Raises (Builtin e)
  end.

Definition raise {A} (c : ExcClass) (msg : fstring) : Outcome BuiltinExc A :=
  Raises (mkExc c msg).

(** ** Structural induction through the nested list of members *)

Section GeometryInduction.
Variable P : BaseGeometry → Prop.
Hypothesis HPoint : ∀ c, P (Point c).
Hypothesis HLineString : ∀ cs, P (LineString cs).
Hypothesis HPolygon : ∀ rs, P (Polygon rs).
Hypothesis HMultiPoint : ∀ cs, P (MultiPoint cs).
Hypothesis HMultiLineString : ∀ ls, P (MultiLineString ls).
Hypothesis HMultiPolygon : ∀ ps, P (MultiPolygon ps).
Hypothesis HCollection : ∀ gs, Forall P gs → P (GeometryCollection gs).

Fixpoint BaseGeometry_nested_ind (g : BaseGeometry) : P g :=
  match g with
  | Point c => HPoint c
  | LineString cs => HLineString cs
  | Polygon rs => HPolygon rs
  | MultiPoint cs => HMultiPoint cs
  | MultiLineString ls => HMultiLineString ls
  | MultiPolygon ps => HMultiPolygon ps
  | GeometryCollection gs =>
      HCollection gs
        ((fix all (gs : list BaseGeometry) : Forall P gs :=
            match gs with
            | [] => Forall_nil_2 P
            | g :: gs' =>
                Forall_cons_2 P g gs' (BaseGeometry_nested_ind g) (all gs')
            end) gs)
  end.
End GeometryInduction.

(** ** The shapely functions the module calls *)

(** Modelled from the spec: [BaseGeometry.geom_type] of the shapely library,
    which is not part of the repository; it is the kind tag of the shape
    (section 3, "its kind is always one of the seven GeometryKind tags"). *)
Definition geom_type (g : BaseGeometry) : string :=
  match g with
  | Point _ => "Point"
  | LineString _ => "LineString"
  | Polygon _ => "Polygon"
  | MultiPoint _ => "MultiPoint"
  | MultiLineString _ => "MultiLineString"
  | MultiPolygon _ => "MultiPolygon"
  | GeometryCollection _ => "GeometryCollection"
  end.

(** Modelled from the spec: the [coordinates] member [mapping] produces,
    "nested arrays of numbers, nesting depth determined by kind"
    (section 3), as nested tuples of floats. *)
Definition position_value (c : Position) : PyVal := PTuple (PFloat <$> c).
Definition line_value (cs : list Position) : PyVal := PTuple (position_value <$> cs).
Definition rings_value (rs : list (list Position)) : PyVal := PTuple (line_value <$> rs).
Definition polygons_value (ps : list (list (list Position))) : PyVal :=
  PTuple (rings_value <$> ps).

(** Modelled from the spec: [shapely.geometry.mapping], which is not part of
    the repository; it produces "the canonical GeoJSON object: a [type]
    string plus [coordinates] or [geometries] as appropriate" (section 4.1),
    coordinates as nested tuples of floats. *)
Fixpoint mapping (g : BaseGeometry) : PyVal :=
  match g with
  | Point c =>
      PDict [("type", PStr "Point"); ("coordinates", position_value c)]
  | LineString cs =>
      PDict [("type", PStr "LineString"); ("coordinates", line_value cs)]
  | Polygon rs =>
      PDict [("type", PStr "Polygon"); ("coordinates", rings_value rs)]
  | MultiPoint cs =>
      PDict [("type", PStr "MultiPoint"); ("coordinates", line_value cs)]
  | MultiLineString ls =>
      PDict [("type", PStr "MultiLineString"); ("coordinates", rings_value ls)]
  | MultiPolygon ps =>
      PDict [("type", PStr "MultiPolygon"); ("coordinates", polygons_value ps)]
  | GeometryCollection gs =>
      PDict [("type", PStr "GeometryCollection");
             ("geometries", PList (mapping <$> gs))]
  end.

(** A number of a coordinate array: an [int] or a [float], read as a
    float. *)
Definition number_value (v : PyVal) : option num :=
  match v with
  | PInt z => Some (float_of_int z)
  | PFloat x => Some x
  | _ => None
  end.

(** A sequence: a list or a tuple. *)
Definition sequence (v : PyVal) : option (list PyVal) :=
  match v with
  | PList l | PTuple l => Some l
  | _ => None
  end.

(** Modelled from the spec: the coordinate arrays [shape] parses, one
    function per nesting depth; a value that is not a sequence, or a leaf
    that is not a number, is a "structural defect in coordinate nesting"
    (section 4.1). *)
Definition parse_position (v : PyVal) : option Position :=
  sequence v ≫= mapM number_value.
Definition parse_line (v : PyVal) : option (list Position) :=
  sequence v ≫= mapM parse_position.
Definition parse_rings (v : PyVal) : option (list (list Position)) :=
  sequence v ≫= mapM parse_line.
Definition parse_polygons (v : PyVal) : option (list (list (list Position))) :=
  sequence v ≫= mapM parse_rings.

(** Modelled from the spec: how [shape] fails; a missing member fails the
    decode with [KeyError], a defect in the nesting with [ValueError]. *)
Definition member (d : list (string * PyVal)) (k : string) : Outcome BuiltinExc PyVal :=
  match dict_get d k with
  | Some v => Returns v
  | None => raise KeyError [FRepr (PStr k)]
  end.

Definition well_nested {A} (k : string) (o : option A) : Outcome BuiltinExc A :=
  match o with
  | Some a => Returns a
  | None => raise ValueError [FLit "malformed "; FLit k]
  end.

Definition coordinates {A} (parse : PyVal → option A) (d : list (string * PyVal))
  : Outcome BuiltinExc A :=
  c ←! member d "coordinates"; well_nested "coordinates" (parse c).

(** Modelled from the spec: [shape] applied to every member of a
    collection, stopping at the first failure. *)
Fixpoint shape_all (shape : PyVal → Outcome BuiltinExc BaseGeometry) (l : list PyVal)
  : Outcome BuiltinExc (list BaseGeometry) :=
  match l with
  | [] => Returns []
  | x :: l' => g ←! shape x; gs ←! shape_all shape l'; Returns (g :: gs)
  end.

(** Modelled from the spec: the dispatch of [shape] on the [type] member;
    [geometries] is the outcome of decoding the members of a collection. *)
Definition shape_dict (geometries : Outcome BuiltinExc (list BaseGeometry))
    (d : list (string * PyVal)) : Outcome BuiltinExc BaseGeometry :=
  match dict_get d "type" with
  | Some (PStr t) =>
      if String.eqb t "Point" then
        c ←! coordinates parse_position d; Returns (Point c)
      else if String.eqb t "LineString" then
        c ←! coordinates parse_line d; Returns (LineString c)
      else if String.eqb t "Polygon" then
        c ←! coordinates parse_rings d; Returns (Polygon c)
      else if String.eqb t "MultiPoint" then
        c ←! coordinates parse_line d; Returns (MultiPoint c)
      else if String.eqb t "MultiLineString" then
        c ←! coordinates parse_rings d; Returns (MultiLineString c)
      else if String.eqb t "MultiPolygon" then
        c ←! coordinates parse_polygons d; Returns (MultiPolygon c)
      else if String.eqb t "GeometryCollection" then
        gs ←! geometries; Returns (GeometryCollection gs)
      else raise ValueError [FLit "Unknown geometry type: "; FRepr (PStr t)]
  | _ => raise ValueError [FLit "Unknown geometry type"]
  end.

(** Modelled from the spec: [shapely.geometry.shape], which is not part of
    the repository; it "parses the kind-specific fields ([coordinates] for
    simple kinds, nested coordinate arrays for multi-kinds, [geometries] for
    collections) into the concrete shape", and "any structural defect in
    coordinate nesting fails the whole decode" (section 4.1).  The members
    of a collection are the sequence under the first [geometries] key, each
    decoded by [shape] itself. *)
Fixpoint shape (v : PyVal) : Outcome BuiltinExc BaseGeometry :=
  match v with
  | PDict d =>
      shape_dict
        ((fix geometries (d : list (string * PyVal)) :=
            match d with
            | [] => raise KeyError [FRepr (PStr "geometries")]
            | (k, x) :: d' =>
                if String.eqb k "geometries" then
                  match x with
                  | PList l | PTuple l =>
                      (fix all (l : list PyVal) :=
                         match l with
                         | [] => Returns []
                         | y :: l' =>
                             g ←! shape y; gs ←! all l'; Returns (g :: gs)
                         end) l
                  | _ => raise ValueError [FLit "malformed "; FLit "geometries"]
                  end
                else geometries d'
            end) d)
        d
  | _ => raise TypeError [FLit "not a mapping"]
  end.

(** Modelled from the spec: [==] on shapely shapes, which is not part of the
    repository; "two Geometry values are equal iff their decoded kind and
    all coordinate data match exactly (no floating-point tolerance)"
    (section 4.1). *)
Fixpoint geom_eqb (g h : BaseGeometry) : bool :=
  match g, h with
  | Point c, Point c' => bool_decide (c = c')
  | LineString cs, LineString cs' => bool_decide (cs = cs')
  | Polygon rs, Polygon rs' => bool_decide (rs = rs')
  | MultiPoint cs, MultiPoint cs' => bool_decide (cs = cs')
  | MultiLineString ls, MultiLineString ls' => bool_decide (ls = ls')
  | MultiPolygon ps, MultiPolygon ps' => bool_decide (ps = ps')
  | GeometryCollection gs, GeometryCollection hs =>
      (fix all (gs hs : list BaseGeometry) : bool :=
         match gs, hs with
         | [], [] => true
         | g' :: gs', h' :: hs' => geom_eqb g' h' && all gs' hs'
         | _, _ => false
         end) gs hs
  | _, _ => false
  end.

(** ** [geometry.py]: the kind taxonomy *)

Definition _GEOMETRY_TYPES : list string :=
  ["GeometryCollection"; "LineString"; "Point"; "Polygon";
   "MultiLineString"; "MultiPoint"; "MultiPolygon"].

Definition str_tuple (t : list string) : PyVal := PTuple (PStr <$> t).
Definition str_list (t : list string) : PyVal := PList (PStr <$> t).

(** The order of [str]: lexicographic on the code points, which on the
    bytes of a UTF-8 string is the lexicographic order of the bytes.
    [sorted] returns the elements in ascending order. *)
Definition str_le (s t : string) : Prop := String.leb s t = true.

#[export] Instance str_le_dec : RelDecision str_le.
Proof. intros s t. unfold str_le. apply _. Defined.

Definition sorted (a : list string) : list string := merge_sort str_le a.

(** ** [class GeometryTypeConstraint] *)

Record GeometryTypeConstraint := mkConstraint { allowed_types : list string }.

Definition _validate_geometry_types (a : list string) : Outcome BuiltinExc (list string) :=
  if negb (truthy (str_tuple a)) then
    raise ValueError
      [FLit "allowed_types is empty (it must contain at least one of: ";
       FRepr (str_tuple _GEOMETRY_TYPES); FLit ")"]
  else if negb (forallb (λ item, bool_decide (item ∈ _GEOMETRY_TYPES)) a) then
    let invalid := filter (λ item, item ∉ _GEOMETRY_TYPES) a in
    raise ValueError
      [FLit "allowed_types contains invalid values: "; FRepr (str_list invalid);
       FLit " (allowed: "; FRepr (str_tuple _GEOMETRY_TYPES); FLit ")"]
  else if negb (Nat.eqb (length (remove_dups a)) (length a)) then
    raise ValueError [FLit "allowed_types contains duplicate(s)"]
  else Returns (sorted a).

Definition GeometryTypeConstraint___init__ (allowed_types : list string)
  : Outcome BuiltinExc GeometryTypeConstraint :=
  t ←! _validate_geometry_types allowed_types; Returns (mkConstraint t).

(** [pydantic.ValidationInfo]; [context] is whatever the caller passed,
    [None] by default. *)
Record ValidationInfo := mkInfo { context : PyVal }.

(** [x.get(k, default)] on an arbitrary object. *)
Definition get_default (x : PyVal) (k : string) (default : PyVal) : Outcome BuiltinExc PyVal :=
  match x with
  | PDict d => Returns (from_option id default (dict_get d k))
  | _ =>
      raise AttributeError
        [FRepr (PStr (type_name x)); FLit " object has no attribute "; FRepr (PStr "get")]
  end.

Definition dquote : string := String (Ascii.ascii_of_nat 34) EmptyString.

(** [x + t] for a tuple [t]. *)
Definition add_tuple (x : PyVal) (t : list PyVal) : Outcome BuiltinExc (list PyVal) :=
  match x with
  | PTuple l => Returns (l ++ t)
  | PList _ | PStr _ =>
      raise TypeError
        [FLit "can only concatenate "; FLit (type_name x); FLit " (not ";
         FLit dquote; FLit "tuple"; FLit dquote; FLit ") to "; FLit (type_name x)]
  | _ =>
      raise TypeError
        [FLit "unsupported operand type(s) for +: "; FRepr (PStr (type_name x));
         FLit " and "; FRepr (PStr "tuple")]
  end.

(** The two statements shared by both validators:
    [context = info.context or {}] and
    [loc = context.get("loc_prefix", ()) + ("value",)]. *)
Definition error_loc (info : ValidationInfo) : Outcome BuiltinExc (list PyVal) :=
  let context := if truthy (context info) then context info else PDict [] in
  prefix ←! get_default context "loc_prefix" (PTuple []);
  add_tuple prefix [PStr "value"].

Definition value_error (title : string) (loc : list PyVal) (input : PyVal)
    (error : fstring) : Exception :=
  ValidationError
    {| ve_title := title;
       ve_line_errors :=
         [ {| ied_type := "value_error"; ied_loc := loc; ied_input := input;
              ied_ctx := [("error", error)] |} ] |}.

(** [value.geom.geom_type] on whatever the inner schema produced. *)
Definition geom_type_of (value : PyVal) : Outcome BuiltinExc string :=
  match value with
  | PGeom g => Returns (geom_type (geom g))
  | _ =>
      raise AttributeError
        [FRepr (PStr (type_name value)); FLit " object has no attribute ";
         FRepr (PStr "geom")]
  end.

(** [GeometryTypeConstraint.validate]: the function has no [return]
    statement, so a call that does not raise returns [None]. *)
Definition GeometryTypeConstraint_validate (self : GeometryTypeConstraint)
    (value : PyVal) (info : ValidationInfo) : Outcome Exception PyVal :=
  geometry_type ←! lift_exc (geom_type_of value);
  if negb (bool_decide (geometry_type ∈ allowed_types self)) then
    loc ←! lift_exc (error_loc info);
    Raises
      (value_error "GeometryTypeConstraint" loc value
         [FLit "geometry type not allowed: "; FRepr (PStr geometry_type);
          FLit " (allowed values: "; FRepr (str_tuple (allowed_types self));
          FLit ")"])
  else Returns PNone.

(** ** [class Geometry] *)

(** What a name resolves to on an instance of [Geometry]: the instance
    attribute, a method of the class, or a member inherited from
    [object]. *)
Inductive Attribute :=
| AttrGeom (g : BaseGeometry)
| AttrMethod (name : string)
| AttrObject (name : string).

Definition Geometry_methods : list string :=
  ["__init__"; "__eq__"; "__hash__"; "__repr__"; "__str__"; "to_geo_json";
   "from_geo_json"; "__get_pydantic_core_schema__"; "__get_pydantic_json_schema__"].

Definition object_attributes : list string :=
  ["__class__"; "__delattr__"; "__dict__"; "__dir__"; "__doc__"; "__format__";
   "__ge__"; "__getattribute__"; "__getstate__"; "__gt__"; "__init_subclass__";
   "__le__"; "__lt__"; "__module__"; "__ne__"; "__new__"; "__reduce__";
   "__reduce_ex__"; "__setattr__"; "__sizeof__"; "__subclasshook__";
   "__weakref__"; "__annotations__"].

(** [self.<name>]: instance dictionary, then the class, then [object]. *)
Definition Geometry_getattr (self : Geometry) (name : string)
  : Outcome BuiltinExc Attribute :=
  if String.eqb name "geom" then Returns (AttrGeom (geom self))
  else if bool_decide (name ∈ Geometry_methods) then Returns (AttrMethod name)
  else if bool_decide (name ∈ object_attributes) then Returns (AttrObject name)
  else
    raise AttributeError
      [FRepr (PStr "Geometry"); FLit " object has no attribute "; FRepr (PStr name)].

Definition Geometry___eq__ (self : Geometry) (other : PyVal) : bool :=
  match other with
  | PGeom o => geom_eqb (geom self) (geom o)
  | _ => false
  end.

(** [hash] of a shape is the library's; it is a parameter here. *)
Definition Geometry___hash__ (hash : BaseGeometry → Z) (self : Geometry) : Z :=
  hash (geom self).

(** [return self.wkt] *)
Definition Geometry___str__ (self : Geometry) : Outcome BuiltinExc Attribute :=
  Geometry_getattr self "wkt".

(** [str(g)]: the result of [__str__] must be a [str]. *)
Definition str_of (self : Geometry) : Outcome BuiltinExc string :=
  r ←! Geometry___str__ self;
  raise TypeError [FLit "__str__ returned non-string"].

Definition to_geo_json (self : Geometry) : PyVal := mapping (geom self).

Definition from_geo_json (value : PyVal) : Outcome BuiltinExc Geometry :=
  match value with
  | PDict d =>
      let type_ := from_option id PNone (dict_get d "type") in
      if negb (in_str_tuple type_ _GEOMETRY_TYPES) then
        raise ValueError
          [FLit "allowed_types contains invalid value "; FRepr type_;
           FLit " (allowed: "; FRepr (str_tuple _GEOMETRY_TYPES); FLit ")"]
      else g ←! shape value; Returns (mkGeometry g)
  | _ =>
      raise TypeError
        [FLit "value must be a dict; but "; FRepr value; FLit " has type ";
         FLit (type_name value)]
  end.

(** The zero-argument call [v.<name>()]: the name is looked up first, then
    the attribute is called.  [to_geo_json] is the one method the module
    could reach this way; no other call is dispatched. *)
Definition call_method (v : PyVal) (name : string) : Outcome BuiltinExc PyVal :=
  match v with
  | PGeom g =>
      m ←! Geometry_getattr g name;
      match m with
      | AttrMethod "to_geo_json" => Returns (to_geo_json g)
      | _ => raise TypeError [FLit "call of "; FRepr (PStr name)]
      end
  | _ =>
      raise AttributeError
        [FRepr (PStr (type_name v)); FLit " object has no attribute ";
         FRepr (PStr name)]
  end.

(** ** pydantic core schemas *)

(** A core schema, as far as the module uses it: how a raw input is
    validated and how a validated value is serialized. *)
Record CoreSchema := mkSchema {
  validate_python : PyVal → ValidationInfo → Outcome Exception PyVal;
  serialize_python : PyVal → Outcome Exception PyVal
}.

(** [core_schema.with_info_plain_validator_function(f, serialization=s)] *)
Definition with_info_plain_validator_function
    (function : PyVal → ValidationInfo → Outcome Exception PyVal)
    (serialization : PyVal → Outcome Exception PyVal) : CoreSchema :=
  {| validate_python := function; serialize_python := serialization |}.

(** [core_schema.with_info_after_validator_function(f, schema)]: the inner
    schema validates first, then [f] is called on its output and the value
    [f] returns is the output of validation. *)
Definition with_info_after_validator_function
    (function : PyVal → ValidationInfo → Outcome Exception PyVal)
    (schema : CoreSchema) : CoreSchema :=
  {| validate_python := λ input info,
       v ←! validate_python schema input info; function v info;
     serialize_python := serialize_python schema |}.

(** The inner function [validator] of [Geometry.__get_pydantic_core_schema__]. *)
Definition validator (value : PyVal) (info : ValidationInfo) : Outcome Exception PyVal :=
  match from_geo_json value with
  | Returns g => Returns (PGeom g)
  | Raises e =>
      loc ←! lift_exc (error_loc info);
      Raises
        (value_error "Geometry" loc value
           (FLit "invalid geometry value: " :: exc_str e))
  end.

(** [lambda v: v.to_geojson()] *)
Definition serializer (v : PyVal) : Outcome Exception PyVal :=
  lift_exc (call_method v "to_geojson").

Definition Geometry___get_pydantic_core_schema__ : CoreSchema :=
  with_info_plain_validator_function validator serializer.

(** What a usage site can declare as its source: the class [Geometry], a
    class derived from it, any other class, or an object that is not a
    class (a typing construct such as [Optional[Geometry]]), each with its
    name. *)
Inductive PyType :=
| GeometryClass
| GeometrySubclass (name : string)
| OtherClass (name : string)
| NotAClass (name : string).

(** [t.__name__] *)
Definition class_name (t : PyType) : string :=
  match t with
  | GeometryClass => "Geometry"
  | GeometrySubclass n | OtherClass n | NotAClass n => n
  end.

(** [issubclass(t, Geometry)]: true of [Geometry] and of the classes
    derived from it; [TypeError] when [t] is not a class. *)
Definition issubclass_Geometry (t : PyType) : Outcome BuiltinExc bool :=
  match t with
  | GeometryClass | GeometrySubclass _ => Returns true
  | OtherClass _ => Returns false
  | NotAClass _ => raise TypeError [FLit "issubclass() arg 1 must be a class"]
  end.

Definition GeometryTypeConstraint___get_pydantic_core_schema__
    (self : GeometryTypeConstraint) (source : PyType) (handler : PyType → CoreSchema)
  : Outcome BuiltinExc CoreSchema :=
  is_geometry ←! issubclass_Geometry source;
  if negb is_geometry then
    raise TypeError
      [FLit "GeometryTypeConstraint"; FLit " can only be applied to ";
       FLit "Geometry"; FLit "; but it was applied to "; FLit (class_name source)]
  else
    let schema := handler source in
    Returns (with_info_after_validator_function
               (GeometryTypeConstraint_validate self) schema).

(** pydantic's handler at a usage site that declares [Geometry] itself: the
    class's own hook. *)
Definition handler (source : PyType) : CoreSchema :=
  Geometry___get_pydantic_core_schema__.

(** ** JSON Schema primitives for GeoJSON geometry *)

Definition number_schema : PyVal := PDict [("type", PStr "number")].

Definition array_schema (min_items : Z) (items : PyVal) : PyVal :=
  PDict [("type", PStr "array"); ("minItems", PInt min_items); ("items", items)].

Definition _BBOX_JSON_SCHEMA : PyVal := array_schema 4 number_schema.

Definition _POINT_COORDINATES_JSON_SCHEMA : PyVal := array_schema 2 number_schema.

Definition _LINE_STRING_COORDINATES_JSON_SCHEMA : PyVal :=
  array_schema 2 _POINT_COORDINATES_JSON_SCHEMA.

Definition _MULTI_LINE_STRING_COORDINATES_JSON_SCHEMA : PyVal :=
  array_schema 1 _LINE_STRING_COORDINATES_JSON_SCHEMA.

Definition _MULTI_POINT_COORDINATES_JSON_SCHEMA : PyVal :=
  array_schema 1 _POINT_COORDINATES_JSON_SCHEMA.

Definition _LINEAR_RING_COORDINATES_JSON_SCHEMA : PyVal :=
  array_schema 4 _POINT_COORDINATES_JSON_SCHEMA.

Definition _POLYGON_COORDINATES_JSON_SCHEMA : PyVal :=
  array_schema 1 _LINEAR_RING_COORDINATES_JSON_SCHEMA.

Definition _MULTI_POLYGON_COORDINATES_JSON_SCHEMA : PyVal :=
  array_schema 1 _POLYGON_COORDINATES_JSON_SCHEMA.

(** [geometry_json_schema(geometry_type, coordinates=None, geometries=None)];
    an argument left out is [None]. *)
Definition geometry_json_schema (geometry_type : string)
    (coordinates geometries : PyVal) : PyVal :=
  let properties :=
    [("type", PDict [("type", PStr "string"); ("const", PStr geometry_type)]);
     ("bbox", _BBOX_JSON_SCHEMA)] in
  let required := ["type"] in
  let '(required, properties) :=
    if truthy coordinates then
      (required ++ ["coordinates"], properties ++ [("coordinates", coordinates)])
    else (required, properties) in
  let '(required, properties) :=
    if truthy geometries then
      (required ++ ["geometries"], properties ++ [("geometries", geometries)])
    else (required, properties) in
  PDict [("type", PStr "object");
         ("required", str_list required);
         ("properties", PDict properties)].

Definition _LINE_STRING_GEOMETRY_JSON_SCHEMA : PyVal :=
  geometry_json_schema "LineString" _LINE_STRING_COORDINATES_JSON_SCHEMA PNone.

Definition _POINT_GEOMETRY_JSON_SCHEMA : PyVal :=
  geometry_json_schema "Point" _POINT_COORDINATES_JSON_SCHEMA PNone.

Definition _POLYGON_GEOMETRY_JSON_SCHEMA : PyVal :=
  geometry_json_schema "Polygon" _POLYGON_COORDINATES_JSON_SCHEMA PNone.

Definition _MULTI_LINE_STRING_GEOMETRY_JSON_SCHEMA : PyVal :=
  geometry_json_schema "MultiLineString" _MULTI_LINE_STRING_COORDINATES_JSON_SCHEMA PNone.

Definition _MULTI_POINT_GEOMETRY_JSON_SCHEMA : PyVal :=
  geometry_json_schema "MultiPoint" _MULTI_POINT_COORDINATES_JSON_SCHEMA PNone.

Definition _MULTI_POLYGON_GEOMETRY_JSON_SCHEMA : PyVal :=
  geometry_json_schema "MultiPolygon" _MULTI_POLYGON_COORDINATES_JSON_SCHEMA PNone.

Definition _GEOMETRY_COLLECTION_JSON_SCHEMA : PyVal :=
  geometry_json_schema "GeometryCollection" PNone
    (PDict [("oneOf",
             PTuple [_LINE_STRING_GEOMETRY_JSON_SCHEMA;
                     _POINT_GEOMETRY_JSON_SCHEMA;
                     _POLYGON_GEOMETRY_JSON_SCHEMA;
                     _MULTI_LINE_STRING_GEOMETRY_JSON_SCHEMA;
                     _MULTI_POINT_GEOMETRY_JSON_SCHEMA;
                     _MULTI_POLYGON_GEOMETRY_JSON_SCHEMA])]).

(** Lookup table for all the JSON Schema. *)
Definition _GEOMETRY_JSON_SCHEMA : list (string * PyVal) :=
  [("GeometryCollection", _GEOMETRY_COLLECTION_JSON_SCHEMA);
   ("LineString", _LINE_STRING_GEOMETRY_JSON_SCHEMA);
   ("Point", _POINT_GEOMETRY_JSON_SCHEMA);
   ("Polygon", _POLYGON_GEOMETRY_JSON_SCHEMA);
   ("MultiLineString", _MULTI_LINE_STRING_GEOMETRY_JSON_SCHEMA);
   ("MultiPoint", _MULTI_POINT_GEOMETRY_JSON_SCHEMA);
   ("MultiPolygon", _MULTI_POLYGON_GEOMETRY_JSON_SCHEMA)].

(** [d[k]], [KeyError] when the key is absent. *)
Definition subscript (d : list (string * PyVal)) (k : string) : Outcome BuiltinExc PyVal :=
  match dict_get d k with
  | Some v => Returns v
  | None => raise KeyError [FRepr (PStr k)]
  end.

(** [tuple(map(f, xs))] for an [f] that may raise. *)
Fixpoint tuple_map {A B} (f : A → Outcome BuiltinExc B) (xs : list A)
  : Outcome BuiltinExc (list B) :=
  match xs with
  | [] => Returns []
  | x :: xs' => y ←! f x; ys ←! tuple_map f xs'; Returns (y :: ys)
  end.

Definition GeometryTypeConstraint___get_pydantic_json_schema__
    (self : GeometryTypeConstraint) : Outcome BuiltinExc PyVal :=
  if Nat.eqb (length (allowed_types self)) 1 then
    match allowed_types self with
    | x :: _ => subscript _GEOMETRY_JSON_SCHEMA x
    | [] => raise IndexError [FLit "tuple index out of range"]
    end
  else
    allowed_schemas ←! tuple_map (λ x, subscript _GEOMETRY_JSON_SCHEMA x)
                         (allowed_types self);
    Returns (PDict [("oneOf", PTuple allowed_schemas)]).

Definition _ALL_GEOMETRY_ALLOWED : Outcome BuiltinExc GeometryTypeConstraint :=
  GeometryTypeConstraint___init__ _GEOMETRY_TYPES.

Definition Geometry___get_pydantic_json_schema__ : Outcome BuiltinExc PyVal :=
  c ←! _ALL_GEOMETRY_ALLOWED; GeometryTypeConstraint___get_pydantic_json_schema__ c.

(** ** Notions the properties are stated with *)

(** Arrays of numbers nested [n] levels deep. *)
Fixpoint nested_numbers (n : nat) (v : PyVal) : bool :=
  match n with
  | O => bool_decide (is_Some (number_value v))
  | S n' =>
      match sequence v with
      | Some l => forallb (nested_numbers n') l
      | None => false
      end
  end.

(** The six kinds that carry [coordinates], with the depth of the array. *)
Definition coordinate_depth (t : string) : option nat :=
  if String.eqb t "Point" then Some 1
  else if String.eqb t "LineString" then Some 2
  else if String.eqb t "MultiPoint" then Some 2
  else if String.eqb t "Polygon" then Some 3
  else if String.eqb t "MultiLineString" then Some 3
  else if String.eqb t "MultiPolygon" then Some 4
  else None.

(** A GeoJSON geometry object whose kind-specific member is present and
    properly nested. *)
Inductive WellFormed : PyVal → Prop :=
| wf_coordinates d t n c :
    dict_get d "type" = Some (PStr t) →
    coordinate_depth t = Some n →
    dict_get d "coordinates" = Some c →
    nested_numbers n c = true →
    WellFormed (PDict d)
| wf_geometries d x l :
    dict_get d "type" = Some (PStr "GeometryCollection") →
    dict_get d "geometries" = Some x →
    sequence x = Some l →
    Forall WellFormed l →
    WellFormed (PDict d).

(** Two coordinate arrays with the same numbers in the same nesting; a list
    and a tuple, and [1] and [1.0], are not told apart. *)
Inductive SameCoordinates : PyVal → PyVal → Prop :=
| same_number a b x :
    number_value a = Some x → number_value b = Some x → SameCoordinates a b
| same_sequence a b la lb :
    sequence a = Some la → sequence b = Some lb →
    Forall2 SameCoordinates la lb → SameCoordinates a b.

(** Two GeoJSON objects with the same geometry: the same [type] and the
    same coordinates, or the same member geometries in the same order. *)
Inductive SameGeometry : PyVal → PyVal → Prop :=
| same_coordinates da db t n ca cb :
    dict_get da "type" = Some (PStr t) → dict_get db "type" = Some (PStr t) →
    coordinate_depth t = Some n →
    dict_get da "coordinates" = Some ca → dict_get db "coordinates" = Some cb →
    SameCoordinates ca cb →
    SameGeometry (PDict da) (PDict db)
| same_geometries da db xa xb la lb :
    dict_get da "type" = Some (PStr "GeometryCollection") →
    dict_get db "type" = Some (PStr "GeometryCollection") →
    dict_get da "geometries" = Some xa → dict_get db "geometries" = Some xb →
    sequence xa = Some la → sequence xb = Some lb →
    Forall2 SameGeometry la lb →
    SameGeometry (PDict da) (PDict db).

(** The coordinate data of a shape: its coordinates, or its members. *)
Definition geom_data (g : BaseGeometry) : PyVal :=
  match g with
  | Point c => position_value c
  | LineString cs | MultiPoint cs => line_value cs
  | Polygon rs | MultiLineString rs => rings_value rs
  | MultiPolygon ps => polygons_value ps
  | GeometryCollection gs => PList (mapping <$> gs)
  end.

(** The location prefix a validation context supplies: the empty tuple
    unless the context is a dict that has a tuple under [loc_prefix]. *)
Definition loc_prefix (info : ValidationInfo) : option (list PyVal) :=
  if negb (truthy (context info)) then Some []
  else
    match context info with
    | PDict d =>
        match dict_get d "loc_prefix" with
        | None => Some []
        | Some (PTuple l) => Some l
        | Some _ => None
        end
    | _ => None
    end.

(** The member of a nested dict at a path of keys. *)
Fixpoint at_path (v : PyVal) (ks : list string) : option PyVal :=
  match ks with
  | [] => Some v
  | k :: ks' =>
      match v with
      | PDict d => dict_get d k ≫= λ x, at_path x ks'
      | _ => None
      end
  end.

(** The fragment the lookup table holds for a kind. *)
Definition fragment (k : string) : option PyVal := dict_get _GEOMETRY_JSON_SCHEMA k.

(** JSON Schema's [type] keyword. *)
Definition has_json_type (t : string) (v : PyVal) : bool :=
  match v with
  | PDict _ => String.eqb t "object"
  | PList _ | PTuple _ => String.eqb t "array"
  | PStr _ => String.eqb t "string"
  | PInt _ | PFloat _ => String.eqb t "number"
  | _ => false
  end.

(** Whether an instance conforms to a schema, for the keywords the
    fragments use: [type], [const] (of a string), [minItems], [items],
    [required], [properties] and [oneOf]. *)
Fixpoint conforms (schema instance : PyVal) : bool :=
  match schema with
  | PDict keywords =>
      (fix each (kws : list (string * PyVal)) : bool :=
         match kws with
         | [] => true
         | (k, s) :: kws' =>
             (if String.eqb k "type" then
                match s with PStr t => has_json_type t instance | _ => false end
              else if String.eqb k "const" then
                match s, instance with
                | PStr c, PStr i => String.eqb c i
                | _, _ => false
                end
              else if String.eqb k "minItems" then
                match s, sequence instance with
                | PInt n, Some l => (n <=? Z.of_nat (length l))%Z
                | _, _ => true
                end
              else if String.eqb k "items" then
                match sequence instance with
                | Some l => forallb (conforms s) l
                | None => true
                end
              else if String.eqb k "required" then
                match sequence s, instance with
                | Some names, PDict d =>
                    forallb (λ n, match n with
                                  | PStr n' => bool_decide (is_Some (dict_get d n'))
                                  | _ => false
                                  end) names
                | _, _ => true
                end
              else if String.eqb k "properties" then
                match s, instance with
                | PDict props, PDict d =>
                    (fix every (ps : list (string * PyVal)) : bool :=
                       match ps with
                       | [] => true
                       | (n, p) :: ps' =>
                           match dict_get d n with
                           | Some x => conforms p x
                           | None => true
                           end && every ps'
                       end) props
                | _, _ => true
                end
              else if String.eqb k "oneOf" then
                match s with
                | PList alts | PTuple alts =>
                    Nat.eqb
                      ((fix count (alts : list PyVal) : nat :=
                          match alts with
                          | [] => 0
                          | a :: alts' =>
                              (if conforms a instance then 1 else 0) + count alts'
                          end) alts)
                      1
                | _ => false
                end
              else true)
             && each kws'
         end) keywords
  | _ => false
  end.

(** A GeoJSON collection of one point. *)
Definition collection_of_one_point : PyVal :=
  PDict [("type", PStr "GeometryCollection");
         ("geometries",
          PList [PDict [("type", PStr "Point");
                        ("coordinates", PList [PInt 0; PInt 0])]])].

(** The kind-specific member of a GeoJSON object of kind [k], and the one
    the kind does not have. *)
Definition kind_member (k : string) : string :=
  if String.eqb k "GeometryCollection" then "geometries" else "coordinates".

Definition other_member (k : string) : string :=
  if String.eqb k "GeometryCollection" then "coordinates" else "geometries".

(** The kind a fragment is for: the [const] of its [type] property. *)
Definition fragment_kind (f : PyVal) : option string :=
  match at_path f ["properties"; "type"; "const"] with
  | Some (PStr k) => Some k
  | _ => None
  end.

(** The kinds an emitted schema offers: those of the alternatives of its
    [oneOf], or the one of the fragment when it is no union. *)
Definition emitted_kinds (s : PyVal) : option (list string) :=
  match at_path s ["oneOf"] with
  | Some alts => sequence alts ≫= mapM fragment_kind
  | None => k ← fragment_kind s; Some [k]
  end.

(** ** Proof automation *)

(** Case analysis on a name known to be one of the seven kinds. *)
Ltac each_kind H :=
  unfold _GEOMETRY_TYPES in H;
  repeat (apply elem_of_cons in H as [->|H]);
  [..|by apply elem_of_nil in H].

(** Case analysis on the first comparison of a literal with [k]. *)
Ltac first_eqb k :=
  match goal with
  | |- context [String.eqb ?s k] => destruct (String.eqb_spec s k) as [<-|_]
  end.

(** Case analysis on every comparison of strings in the goal. *)
Ltac each_eqb :=
  repeat match goal with
         | |- context [String.eqb ?t ?s] => destruct (String.eqb_spec t s) as [->|?]
         end.

(** * Properties *)

(** ** The order of strings and [sorted] *)

Lemma str_le_iff s t : str_le s t ↔ s = t ∨ String_as_OT.lt s t.
Proof.
  unfold str_le, String.leb.
  destruct (String.compare s t) eqn:Hc.
  - apply String_as_OT.cmp_eq in Hc. intuition.
  - apply String_as_OT.cmp_lt in Hc. intuition.
  - split; [discriminate|].
    intros [->|Hlt].
    + assert (String.compare t t = Eq) as Heq by (by apply String_as_OT.cmp_eq).
      congruence.
    + apply String_as_OT.cmp_lt in Hlt. unfold String_as_OT.cmp in Hlt. congruence.
Qed.

Lemma str_le_trans : Transitive str_le.
Proof.
  intros s t u Hst Htu. apply str_le_iff in Hst, Htu. apply str_le_iff.
  destruct Hst as [->|Hst]; [done|].
  destruct Htu as [<-|Htu]; [by right|].
  right. by eapply String_as_OT.lt_trans.
Qed.

Lemma str_le_total : Total str_le.
Proof. intros s t. apply String.leb_total. Qed.

Lemma str_le_antisym : AntiSymm (=) str_le.
Proof. intros s t. apply String.leb_antisym. Qed.

#[export] Existing Instances str_le_trans str_le_total str_le_antisym.

Lemma sorted_Sorted a : StronglySorted str_le (sorted a).
Proof. apply StronglySorted_merge_sort; apply _. Qed.

Lemma sorted_Permutation a : sorted a ≡ₚ a.
Proof. apply merge_sort_Permutation. Qed.

(** [sorted] depends on the elements only, not on their order. *)
Lemma sorted_canonical a b : a ≡ₚ b → sorted a = sorted b.
Proof.
  intros Hab. apply (StronglySorted_unique str_le); auto using sorted_Sorted.
  by rewrite !sorted_Permutation.
Qed.

(** ** Construction of a constraint *)

Lemma length_remove_dups_le (l : list string) : (length (remove_dups l) ≤ length l)%nat.
Proof.
  induction l as [|x l IH]; simpl; [lia|].
  destruct (decide_rel _ x l); simpl; lia.
Qed.

(** [len(set(a)) == len(a)] says there is no duplicate. *)
Lemma length_remove_dups_NoDup (l : list string) :
  length (remove_dups l) = length l ↔ NoDup l.
Proof.
  induction l as [|x l IH]; simpl.
  - split; [constructor|done].
  - pose proof (length_remove_dups_le l) as Hle.
    destruct (decide_rel _ x l) as [Hin|Hin]; simpl.
    + split; [lia|]. intros Hnd. apply list.NoDup_cons in Hnd as [? _]. done.
    + split.
      * intros Hlen. apply list.NoDup_cons. split; [done|]. apply IH. lia.
      * intros Hnd. apply list.NoDup_cons in Hnd as [_ Hnd]. f_equal. by apply IH.
Qed.

Lemma all_recognized (a : list string) :
  forallb (λ item, bool_decide (item ∈ _GEOMETRY_TYPES)) a = true
  ↔ Forall (λ item, item ∈ _GEOMETRY_TYPES) a.
Proof.
  induction a as [|x a IH]; simpl.
  - split; [constructor|done].
  - rewrite list.Forall_cons, <- IH. split.
    + intros [Hx Ha]%andb_prop. by apply bool_decide_eq_true in Hx.
    + intros [Hx Ha]. apply andb_true_intro. by rewrite bool_decide_eq_true.
Qed.

(** When [_validate_geometry_types] returns. *)
Lemma _validate_geometry_types_returns a t :
  _validate_geometry_types a = Returns t
  ↔ a ≠ [] ∧ Forall (λ item, item ∈ _GEOMETRY_TYPES) a ∧ NoDup a ∧ t = sorted a.
Proof.
  unfold _validate_geometry_types.
  destruct a as [|x a]; [simpl; split; [discriminate|intros [? _]; done]|].
  cbn [str_tuple fmap list_fmap truthy length Nat.eqb negb].
  destruct (forallb _ (x :: a)) eqn:Hall; cbn [negb].
  - apply all_recognized in Hall.
    destruct (Nat.eqb _ _) eqn:Hlen; cbn [negb].
    + apply Nat.eqb_eq, length_remove_dups_NoDup in Hlen.
      split; [intros [= <-]; done|intros (_ & _ & _ & ->); done].
    + apply Nat.eqb_neq in Hlen. rewrite length_remove_dups_NoDup in Hlen.
      split; [discriminate|intros (_ & _ & ? & _); done].
  - split; [discriminate|]. intros (_ & HF & _).
    apply all_recognized in HF. congruence.
Qed.

(** Whatever [_validate_geometry_types] raises is a [ValueError]. *)
Lemma _validate_geometry_types_raises a e :
  _validate_geometry_types a = Raises e → exc_class e = ValueError.
Proof.
  unfold _validate_geometry_types, raise.
  repeat case_match; intros [= <-]; done.
Qed.

Lemma _validate_geometry_types_total a :
  (∃ t, _validate_geometry_types a = Returns t)
  ∨ (∃ e, _validate_geometry_types a = Raises e).
Proof. destruct (_validate_geometry_types a); eauto. Qed.

Lemma GeometryTypeConstraint___init___returns a c :
  GeometryTypeConstraint___init__ a = Returns c
  ↔ _validate_geometry_types a = Returns (allowed_types c).
Proof.
  unfold GeometryTypeConstraint___init__, bind.
  destruct (_validate_geometry_types a) as [t|e]; destruct c as [t']; simpl.
  - split; [by intros [= ->]|by intros [= ->]].
  - split; discriminate.
Qed.

Lemma GeometryTypeConstraint___init___raises a e :
  GeometryTypeConstraint___init__ a = Raises e
  ↔ _validate_geometry_types a = Raises e.
Proof.
  unfold GeometryTypeConstraint___init__, bind.
  destruct (_validate_geometry_types a) as [t|e']; simpl.
  - split; discriminate.
  - split; intros [= ->]; done.
Qed.

(** C6: constructing a constraint fails, with a [ValueError], exactly when
    no kind is given, when some given name is not one of the seven kinds,
    or when a name is given twice; when it succeeds the stored
    [allowed_types] is the sorted tuple of the given kinds, and any other
    order of the same kinds builds the same constraint. *)
Theorem constraint_construction (a : list string) :
  ((∃ e, GeometryTypeConstraint___init__ a = Raises e)
     ↔ a = [] ∨ (∃ x, x ∈ a ∧ x ∉ _GEOMETRY_TYPES) ∨ ¬ NoDup a)
  ∧ (∀ e, GeometryTypeConstraint___init__ a = Raises e → exc_class e = ValueError)
  ∧ (∀ c, GeometryTypeConstraint___init__ a = Returns c →
       StronglySorted str_le (allowed_types c)
       ∧ allowed_types c ≡ₚ a
       ∧ ∀ b, b ≡ₚ a → GeometryTypeConstraint___init__ b = Returns c).
Proof.
  split; [|split].
  - split.
    + intros [e He]. apply GeometryTypeConstraint___init___raises in He.
      destruct (decide (a = [])) as [|Hne]; [by left|right].
      destruct (decide (Forall (λ item, item ∈ _GEOMETRY_TYPES) a)) as [HF|HF].
      * right. intros Hnd.
        assert (_validate_geometry_types a = Returns (sorted a)) as Hr
          by (by apply _validate_geometry_types_returns).
        congruence.
      * left. apply not_Forall_Exists in HF; [|apply _].
        apply list.Exists_exists in HF as (x & Hx & Hnx). by exists x.
    + intros Hbad.
      destruct (_validate_geometry_types_total a) as [[t Ht]|[e He]].
      * apply _validate_geometry_types_returns in Ht as (Hne & HF & Hnd & _).
        destruct Hbad as [?|[(x & Hx & Hnx)|?]]; [done| |done].
        rewrite list.Forall_forall in HF. by apply HF in Hx.
      * exists e. by apply GeometryTypeConstraint___init___raises.
  - intros e He. apply GeometryTypeConstraint___init___raises in He.
    by eapply _validate_geometry_types_raises.
  - intros c Hc. apply GeometryTypeConstraint___init___returns in Hc.
    pose proof Hc as Hc'.
    apply _validate_geometry_types_returns in Hc' as (Hne & HF & Hnd & Ht).
    rewrite Ht. split; [apply sorted_Sorted|]. split; [apply sorted_Permutation|].
    intros b Hb. apply GeometryTypeConstraint___init___returns.
    apply _validate_geometry_types_returns. repeat split.
    + intros ->. by apply Permutation_nil_l in Hb.
    + by rewrite Hb.
    + by rewrite Hb.
    + rewrite Ht. by apply sorted_canonical.
Qed.

(** ** The lookup table and schema emission *)

(** The table has a fragment for each of the seven kinds, and no other. *)
Lemma fragment_is_Some k : is_Some (fragment k) ↔ k ∈ _GEOMETRY_TYPES.
Proof.
  split.
  - unfold fragment, _GEOMETRY_JSON_SCHEMA, _GEOMETRY_TYPES. cbn [dict_get].
    repeat (first_eqb k; [intros _; by apply (bool_decide_unpack _)|]).
    by intros [? ?].
  - intros H. each_kind H; vm_compute; eauto.
Qed.

(** Each fragment of the table is the one of its key. *)
Lemma fragment_const k f :
  fragment k = Some f → at_path f ["properties"; "type"; "const"] = Some (PStr k).
Proof.
  unfold fragment, _GEOMETRY_JSON_SCHEMA. cbn [dict_get].
  repeat (first_eqb k; [by intros [= <-]|]).
  discriminate.
Qed.

(** A fragment is an object schema, not a union. *)
Lemma fragment_no_oneOf k f :
  fragment k = Some f →
  at_path f ["type"] = Some (PStr "object") ∧ at_path f ["oneOf"] = None.
Proof.
  unfold fragment, _GEOMETRY_JSON_SCHEMA. cbn [dict_get].
  repeat (first_eqb k; [by intros [= <-]|]).
  discriminate.
Qed.

Lemma subscript_fragment k f :
  fragment k = Some f → subscript _GEOMETRY_JSON_SCHEMA k = Returns f.
Proof. unfold fragment, subscript. by intros ->. Qed.

Lemma tuple_map_fragments (ks : list string) :
  Forall (λ k, k ∈ _GEOMETRY_TYPES) ks →
  ∃ fs, Forall2 (λ k f, fragment k = Some f) ks fs
        ∧ tuple_map (λ x, subscript _GEOMETRY_JSON_SCHEMA x) ks = Returns fs.
Proof.
  induction 1 as [|k ks Hk _ (fs & Hfs & IH)]; simpl.
  - exists []. split; [constructor|done].
  - apply fragment_is_Some in Hk as [f Hf].
    exists (f :: fs). split; [by constructor|].
    by rewrite (subscript_fragment _ _ Hf), IH.
Qed.

(** The kinds a constructed constraint stores are recognized ones. *)
Lemma allowed_types_recognized a c :
  GeometryTypeConstraint___init__ a = Returns c →
  Forall (λ k, k ∈ _GEOMETRY_TYPES) (allowed_types c).
Proof.
  intros Hc. apply GeometryTypeConstraint___init___returns in Hc.
  apply _validate_geometry_types_returns in Hc as (_ & HF & _ & ->).
  by rewrite sorted_Permutation.
Qed.

(** C3: a constraint that allows exactly one kind emits that kind's
    fragment itself, without a [oneOf] wrapper; a constraint that allows
    several kinds emits a [oneOf] node whose alternatives are the fragments
    of the allowed kinds, one for each; and an unconstrained [Geometry]
    emits the [oneOf] over the fragments of all seven kinds. *)
Theorem schema_emission (a : list string) (c : GeometryTypeConstraint) :
  GeometryTypeConstraint___init__ a = Returns c →
  (∀ k, allowed_types c = [k] →
     ∃ f, fragment k = Some f
          ∧ at_path f ["properties"; "type"; "const"] = Some (PStr k)
          ∧ at_path f ["oneOf"] = None
          ∧ GeometryTypeConstraint___get_pydantic_json_schema__ c = Returns f)
  ∧ (length (allowed_types c) ≠ 1 →
     ∃ fs, Forall2 (λ k f, fragment k = Some f) (allowed_types c) fs
           ∧ GeometryTypeConstraint___get_pydantic_json_schema__ c
             = Returns (PDict [("oneOf", PTuple fs)]))
  ∧ Geometry___get_pydantic_json_schema__
    = Returns (PDict [("oneOf",
                       PTuple [_GEOMETRY_COLLECTION_JSON_SCHEMA;
                               _LINE_STRING_GEOMETRY_JSON_SCHEMA;
                               _MULTI_LINE_STRING_GEOMETRY_JSON_SCHEMA;
                               _MULTI_POINT_GEOMETRY_JSON_SCHEMA;
                               _MULTI_POLYGON_GEOMETRY_JSON_SCHEMA;
                               _POINT_GEOMETRY_JSON_SCHEMA;
                               _POLYGON_GEOMETRY_JSON_SCHEMA])]).
Proof.
  intros Hc. pose proof (allowed_types_recognized _ _ Hc) as HF.
  unfold GeometryTypeConstraint___get_pydantic_json_schema__.
  split; [|split].
  - intros k Hk. rewrite Hk in HF |- *. simpl.
    apply Forall_cons_1 in HF as [Hin _].
    apply fragment_is_Some in Hin as [f Hf]. exists f.
    split; [done|]. split; [by apply fragment_const|].
    split; [by eapply fragment_no_oneOf|by apply subscript_fragment].
  - intros Hlen. apply Nat.eqb_neq in Hlen. rewrite Hlen.
    destruct (tuple_map_fragments _ HF) as (fs & Hfs & Hmap).
    exists fs. split; [done|]. by rewrite Hmap.
  - reflexivity.
Qed.

(** ** The shapes of the fragments *)

Lemma point_fragment_shape :
  _POINT_GEOMETRY_JSON_SCHEMA
  = PDict [("type", PStr "object");
           ("required", PList [PStr "type"; PStr "coordinates"]);
           ("properties",
            PDict [("type", PDict [("type", PStr "string"); ("const", PStr "Point")]);
                   ("bbox", array_schema 4 number_schema);
                   ("coordinates", array_schema 2 number_schema)])].
Proof. reflexivity. Qed.

Lemma polygon_fragment_shape :
  _POLYGON_GEOMETRY_JSON_SCHEMA
  = PDict [("type", PStr "object");
           ("required", PList [PStr "type"; PStr "coordinates"]);
           ("properties",
            PDict [("type", PDict [("type", PStr "string"); ("const", PStr "Polygon")]);
                   ("bbox", array_schema 4 number_schema);
                   ("coordinates",
                    array_schema 1 (array_schema 4 (array_schema 2 number_schema)))])].
Proof. reflexivity. Qed.

(** Every fragment has the [bbox] property, an array of at least four
    numbers, and does not require it. *)
Lemma fragment_bbox k f :
  fragment k = Some f →
  at_path f ["properties"; "bbox"] = Some (array_schema 4 number_schema)
  ∧ ∃ names, at_path f ["required"] = Some (PList names) ∧ PStr "bbox" ∉ names.
Proof.
  unfold fragment, _GEOMETRY_JSON_SCHEMA. cbn [dict_get].
  repeat (first_eqb k;
          [intros [= <-]; split; [reflexivity|];
           eexists; split; [reflexivity|];
           intros Hin; repeat (apply elem_of_cons in Hin as [[=]|Hin]);
           by apply elem_of_nil in Hin|]).
  discriminate.
Qed.

(** C4: the [GeometryCollection] fragment requires [geometries], but its
    schema for that member is the bare [oneOf] over the six non-collection
    fragments: it has neither [type] [array] nor [items], so it describes
    a single geometry object, not an array of them.  The collection of one
    point, which [from_geo_json] decodes, does not conform to the
    fragment. *)
Theorem geometry_collection_fragment_geometries :
  at_path _GEOMETRY_COLLECTION_JSON_SCHEMA ["required"]
  = Some (PList [PStr "type"; PStr "geometries"])
  ∧ at_path _GEOMETRY_COLLECTION_JSON_SCHEMA ["properties"; "geometries"]
    = Some (PDict [("oneOf",
                    PTuple [_LINE_STRING_GEOMETRY_JSON_SCHEMA;
                            _POINT_GEOMETRY_JSON_SCHEMA;
                            _POLYGON_GEOMETRY_JSON_SCHEMA;
                            _MULTI_LINE_STRING_GEOMETRY_JSON_SCHEMA;
                            _MULTI_POINT_GEOMETRY_JSON_SCHEMA;
                            _MULTI_POLYGON_GEOMETRY_JSON_SCHEMA])])
  ∧ at_path _GEOMETRY_COLLECTION_JSON_SCHEMA ["properties"; "geometries"; "type"] = None
  ∧ at_path _GEOMETRY_COLLECTION_JSON_SCHEMA ["properties"; "geometries"; "items"] = None
  ∧ from_geo_json collection_of_one_point
    = Returns (mkGeometry (GeometryCollection [Point [float_of_int 0; float_of_int 0]]))
  ∧ conforms _GEOMETRY_COLLECTION_JSON_SCHEMA collection_of_one_point = false.
Proof. repeat split; reflexivity. Qed.

(** ** Rendering and serialization *)

(** C7: [str(g)] produces no rendering: [__str__] reads [self.wkt], a name
    that an instance of [Geometry] does not have, so for every value the
    call raises [AttributeError]. *)
Theorem str_raises_AttributeError (g : Geometry) :
  str_of g
  = Raises (mkExc AttributeError
              [FRepr (PStr "Geometry"); FLit " object has no attribute ";
               FRepr (PStr "wkt")]).
Proof. reflexivity. Qed.

(** [to_geo_json] is total and returns a dict that starts with the kind. *)
Lemma to_geo_json_type (g : Geometry) :
  ∃ d, to_geo_json g = PDict d
       ∧ dict_get d "type" = Some (PStr (geom_type (geom g))).
Proof. destruct g as [[]]; eexists; split; reflexivity. Qed.

(** C8: the two encode paths do not agree: [to_geo_json] returns the
    GeoJSON object of every value, while the serialization function of the
    core schema calls [to_geojson], a name [Geometry] does not define, and
    raises [AttributeError] on every value. *)
Theorem serializer_raises_AttributeError (g : Geometry) :
  to_geo_json g = mapping (geom g)
  ∧ serialize_python Geometry___get_pydantic_core_schema__ (PGeom g)
    = Raises (Builtin (mkExc AttributeError
                         [FRepr (PStr "Geometry"); FLit " object has no attribute ";
                          FRepr (PStr "to_geojson")])).
Proof. split; reflexivity. Qed.

(** ** Validation at a constrained usage site *)

(** With a location prefix, the location of an error is the prefix
    followed by ["value"]. *)
Lemma error_loc_prefix info prefix :
  loc_prefix info = Some prefix → error_loc info = Returns (prefix ++ [PStr "value"]).
Proof.
  unfold loc_prefix, error_loc.
  destruct (truthy (context info)) eqn:Ht; cbn [negb].
  - destruct (context info) as [| | | | | | |d|]; try discriminate.
    cbn [get_default bind]. destruct (dict_get d "loc_prefix") as [[]|]; try discriminate.
    + by intros [= ->].
    + by intros [= <-].
  - by intros [= <-].
Qed.

(** A value of an allowed kind passes: nothing is raised, and what the
    after-validator function returns is [None]. *)
Lemma validate_allowed c g info :
  geom_type (geom g) ∈ allowed_types c →
  GeometryTypeConstraint_validate c (PGeom g) info = Returns PNone.
Proof.
  intros Hin. unfold GeometryTypeConstraint_validate. cbn [geom_type_of lift_exc bind].
  by rewrite bool_decide_eq_true_2.
Qed.

(** A value of another kind fails with one line error that carries the
    location, the offending kind and the allowed kinds. *)
Lemma validate_not_allowed c g info prefix :
  geom_type (geom g) ∉ allowed_types c →
  loc_prefix info = Some prefix →
  GeometryTypeConstraint_validate c (PGeom g) info
  = Raises (value_error "GeometryTypeConstraint" (prefix ++ [PStr "value"]) (PGeom g)
              [FLit "geometry type not allowed: "; FRepr (PStr (geom_type (geom g)));
               FLit " (allowed values: "; FRepr (str_tuple (allowed_types c));
               FLit ")"]).
Proof.
  intros Hin Hp. unfold GeometryTypeConstraint_validate. cbn [geom_type_of lift_exc bind].
  rewrite bool_decide_eq_false_2 by done. cbn [negb].
  by rewrite (error_loc_prefix _ _ Hp).
Qed.

(** C2: at a usage site constrained to [Point] and [MultiPoint], a decoded
    [LineString] fails with one line error that carries the location, the
    offending kind and the allowed kinds; a decoded [Point] passes the
    check, but the value that comes out of the field's validation is
    [None], not the decoded [Geometry]. *)
Theorem constrained_field_validation :
  ∃ c schema,
    GeometryTypeConstraint___init__ ["Point"; "MultiPoint"] = Returns c
    ∧ GeometryTypeConstraint___get_pydantic_core_schema__ c GeometryClass handler
      = Returns schema
    ∧ validate_python schema
        (PDict [("type", PStr "LineString");
                ("coordinates", PList [PList [PInt 0; PInt 0]; PList [PInt 1; PInt 1]])])
        (mkInfo PNone)
      = Raises
          (value_error "GeometryTypeConstraint" [PStr "value"]
             (PGeom (mkGeometry
                       (LineString [[float_of_int 0; float_of_int 0];
                                    [float_of_int 1; float_of_int 1]])))
             [FLit "geometry type not allowed: "; FRepr (PStr "LineString");
              FLit " (allowed values: "; FRepr (str_tuple ["MultiPoint"; "Point"]);
              FLit ")"])
    ∧ from_geo_json (PDict [("type", PStr "Point"); ("coordinates", PList [PInt 0; PInt 0])])
      = Returns (mkGeometry (Point [float_of_int 0; float_of_int 0]))
    ∧ validate_python schema
        (PDict [("type", PStr "Point"); ("coordinates", PList [PInt 0; PInt 0])])
        (mkInfo PNone)
      = Returns PNone.
Proof. do 2 eexists. repeat split; reflexivity. Qed.

(** ** The validator of the [Geometry] core schema *)



(** ** Decoding: the shape of a GeoJSON object *)

Lemma shape_all_Returns (l : list PyVal) (gs : list BaseGeometry) :
  shape_all shape l = Returns gs ↔ Forall2 (λ y g, shape y = Returns g) l gs.
Proof.
  revert gs. induction l as [|y l IH]; intros gs; simpl.
  - split; [intros [= <-]; constructor|by inversion 1].
  - unfold bind. destruct (shape y) as [g|e] eqn:Hy.
    + destruct (shape_all shape l) as [gs'|e] eqn:Hl.
      * split.
        -- intros [= <-]. constructor; [done|]. by apply IH.
        -- inversion 1 as [|? g' ? gs'' Hg Hgs]; subst.
           apply IH in Hgs. congruence.
      * split; [discriminate|].
        inversion 1 as [|? g' ? gs'' Hg Hgs]; subst. apply IH in Hgs. discriminate.
    + split; [discriminate|]. inversion 1; congruence.
Qed.

(** [shape] on a dict: the members of a collection are found under
    [geometries] and decoded one by one. *)
Lemma shape_PDict d :
  shape (PDict d)
  = shape_dict (x ←! member d "geometries";
                l ←! well_nested "geometries" (sequence x);
                shape_all shape l) d.
Proof.
  cbn [shape]. f_equal.
  induction d as [|[k x] d IH]; [reflexivity|].
  unfold member. cbn [dict_get].
  destruct (String.eqb k "geometries").
  - cbn [bind]. destruct x as [| | | | |l|l| |]; try reflexivity.
    + cbn [sequence well_nested bind]. induction l as [|y l IHl]; [done|].
      cbn [shape_all]. by rewrite IHl.
    + cbn [sequence well_nested bind]. induction l as [|y l IHl]; [done|].
      cbn [shape_all]. by rewrite IHl.
  - exact IH.
Qed.

(** What a successful [shape] tells about its argument. *)
Lemma shape_inv (i : PyVal) (g : BaseGeometry) :
  shape i = Returns g →
  ∃ d, i = PDict d
       ∧ dict_get d "type" = Some (PStr (geom_type g))
       ∧ match g with
         | Point c =>
             ∃ v, dict_get d "coordinates" = Some v ∧ parse_position v = Some c
         | LineString cs | MultiPoint cs =>
             ∃ v, dict_get d "coordinates" = Some v ∧ parse_line v = Some cs
         | Polygon rs | MultiLineString rs =>
             ∃ v, dict_get d "coordinates" = Some v ∧ parse_rings v = Some rs
         | MultiPolygon ps =>
             ∃ v, dict_get d "coordinates" = Some v ∧ parse_polygons v = Some ps
         | GeometryCollection gs =>
             ∃ x l, dict_get d "geometries" = Some x ∧ sequence x = Some l
                    ∧ Forall2 (λ y g, shape y = Returns g) l gs
         end.
Proof.
  destruct i as [| | | | | | |d|]; try discriminate.
  rewrite shape_PDict. unfold shape_dict. intros H. exists d. split; [done|].
  destruct (dict_get d "type") as [[| | | |t| | | |]|]; try discriminate.
  revert H. each_eqb; try discriminate.
  all: unfold coordinates, member, well_nested, bind, raise.
  all: try (destruct (dict_get d "coordinates") as [v|]; [|discriminate]).
  1: destruct (parse_position v) eqn:Hp; [|discriminate].
  2: destruct (parse_line v) eqn:Hp; [|discriminate].
  3: destruct (parse_rings v) eqn:Hp; [|discriminate].
  4: destruct (parse_line v) eqn:Hp; [|discriminate].
  5: destruct (parse_rings v) eqn:Hp; [|discriminate].
  6: destruct (parse_polygons v) eqn:Hp; [|discriminate].
  1-6: intros [= <-]; split; [done|]; by exists v.
  destruct (dict_get d "geometries") as [x|]; [|discriminate].
  destruct (sequence x) as [l|] eqn:Hs; [|discriminate].
  destruct (shape_all shape l) as [gs|] eqn:Hl; [|discriminate].
  intros [= <-]. split; [done|]. exists x, l. by rewrite <- shape_all_Returns.
Qed.

(** *** Coordinate arrays, level by level *)

Section Levels.
Context {A : Type} (parse : PyVal → option A) (value : A → PyVal).

Lemma parse_value_level :
  (∀ a, parse (value a) = Some a) →
  ∀ l, sequence (PTuple (value <$> l)) ≫= mapM parse = Some l.
Proof. intros Hpv l. cbn [sequence mbind option_bind]. by apply mapM_fmap_Some. Qed.

Lemma same_level :
  (∀ x a, parse x = Some a → SameCoordinates x (value a)) →
  ∀ v l, sequence v ≫= mapM parse = Some l →
         SameCoordinates v (PTuple (value <$> l)).
Proof.
  intros Hsame v l Hv.
  destruct (sequence v) as [xs|] eqn:Hs; [|discriminate].
  cbn [mbind option_bind] in Hv. apply mapM_Some in Hv.
  apply (same_sequence _ _ xs (value <$> l)); [done..|].
  apply Forall2_fmap_r. eapply list.Forall2_impl; [exact Hv|]. apply Hsame.
Qed.

Lemma nested_level n :
  (∀ x, nested_numbers n x = true ↔ is_Some (parse x)) →
  ∀ v, nested_numbers (S n) v = true ↔ is_Some (sequence v ≫= mapM parse).
Proof.
  intros Hn v. cbn [nested_numbers].
  destruct (sequence v) as [xs|]; cbn [mbind option_bind].
  - rewrite mapM_is_Some. induction xs as [|x xs IH]; cbn [forallb].
    + split; [constructor|done].
    + rewrite andb_true_iff, list.Forall_cons, IH, Hn. done.
  - split; [discriminate|]. by intros [? ?].
Qed.
End Levels.

Lemma parse_position_value c : parse_position (position_value c) = Some c.
Proof. by apply parse_value_level. Qed.

Lemma parse_line_value cs : parse_line (line_value cs) = Some cs.
Proof. apply parse_value_level, parse_position_value. Qed.

Lemma parse_rings_value rs : parse_rings (rings_value rs) = Some rs.
Proof. apply parse_value_level, parse_line_value. Qed.

Lemma parse_polygons_value ps : parse_polygons (polygons_value ps) = Some ps.
Proof. apply parse_value_level, parse_rings_value. Qed.

Lemma same_position v c : parse_position v = Some c → SameCoordinates v (position_value c).
Proof.
  apply same_level. intros x a Hx. by apply (same_number _ _ a).
Qed.

Lemma same_line v cs : parse_line v = Some cs → SameCoordinates v (line_value cs).
Proof. apply same_level, same_position. Qed.

Lemma same_rings v rs : parse_rings v = Some rs → SameCoordinates v (rings_value rs).
Proof. apply same_level, same_line. Qed.

Lemma same_polygons v ps :
  parse_polygons v = Some ps → SameCoordinates v (polygons_value ps).
Proof. apply same_level, same_rings. Qed.

Lemma nested_position v : nested_numbers 1 v = true ↔ is_Some (parse_position v).
Proof.
  apply nested_level. intros x. cbn [nested_numbers]. by rewrite bool_decide_eq_true.
Qed.

Lemma nested_line v : nested_numbers 2 v = true ↔ is_Some (parse_line v).
Proof. apply nested_level, nested_position. Qed.

Lemma nested_rings v : nested_numbers 3 v = true ↔ is_Some (parse_rings v).
Proof. apply nested_level, nested_line. Qed.

Lemma nested_polygons v : nested_numbers 4 v = true ↔ is_Some (parse_polygons v).
Proof. apply nested_level, nested_rings. Qed.

(** *** Encoding, then decoding *)

Lemma shape_mapping (g : BaseGeometry) : shape (mapping g) = Returns g.
Proof.
  induction g as [c|cs|rs|cs|ls|ps|gs IH] using BaseGeometry_nested_ind;
    cbn [mapping]; rewrite shape_PDict; unfold shape_dict, coordinates, member;
    cbn [dict_get String.eqb Ascii.eqb Bool.eqb bind well_nested].
  - by rewrite parse_position_value.
  - by rewrite parse_line_value.
  - by rewrite parse_rings_value.
  - by rewrite parse_line_value.
  - by rewrite parse_rings_value.
  - by rewrite parse_polygons_value.
  - cbn [sequence well_nested bind].
    assert (shape_all shape (mapping <$> gs) = Returns gs) as ->; [|done].
    apply shape_all_Returns, Forall2_fmap_l, Forall_Forall2_diag. exact IH.
Qed.

(** [geom_eqb] decides equality of shapes. *)
Lemma geom_eqb_eq (g h : BaseGeometry) : geom_eqb g h = true ↔ g = h.
Proof.
  revert h. induction g as [c|cs|rs|cs|ls|ps|gs IH] using BaseGeometry_nested_ind;
    intros [c'|cs'|rs'|cs'|ls'|ps'|hs]; cbn [geom_eqb];
    try (split; [discriminate|by intros [=]]);
    try (rewrite bool_decide_eq_true; split; [by intros ->|by intros [=]]).
  revert hs. induction IH as [|g gs Hg _ IHgs]; intros [|h hs];
    try (split; [done|by intros [=]]); try (split; [discriminate|by intros [=]]).
  rewrite andb_true_iff, Hg. split.
  - intros [-> Hgs]. apply IHgs in Hgs. by injection Hgs as ->.
  - intros [= -> ->]. split; [done|]. by apply IHgs.
Qed.

(** *** Decoding, then encoding *)

Lemma same_geometry_shape (g : BaseGeometry) :
  ∀ i, shape i = Returns g → SameGeometry i (mapping g).
Proof.
  induction g as [c|cs|rs|cs|ls|ps|gs IH] using BaseGeometry_nested_ind;
    intros i Hi; apply shape_inv in Hi as (d & -> & Ht & Hd); cbn [geom_type] in Ht.
  1-6: destruct Hd as (v & Hv & Hp); cbn [mapping].
  - eapply (same_coordinates _ _ "Point" 1); [done..|]. by apply same_position.
  - eapply (same_coordinates _ _ "LineString" 2); [done..|]. by apply same_line.
  - eapply (same_coordinates _ _ "Polygon" 3); [done..|]. by apply same_rings.
  - eapply (same_coordinates _ _ "MultiPoint" 2); [done..|]. by apply same_line.
  - eapply (same_coordinates _ _ "MultiLineString" 3); [done..|]. by apply same_rings.
  - eapply (same_coordinates _ _ "MultiPolygon" 4); [done..|]. by apply same_polygons.
  - destruct Hd as (x & l & Hx & Hl & Hall). cbn [mapping].
    eapply (same_geometries _ _ x (PList (mapping <$> gs)) l); [done..|].
    apply Forall2_fmap_r. clear Hx Hl.
    induction Hall as [|y g l gs Hy _ IHall]; [constructor|].
    apply Forall_cons_1 in IH as [Hg Hgs]. constructor; [by apply Hg|by apply IHall].
Qed.

(** *** [from_geo_json] *)

Lemma recognized_type d t :
  dict_get d "type" = Some (PStr t) →
  in_str_tuple (from_option id PNone (dict_get d "type")) _GEOMETRY_TYPES
  = bool_decide (t ∈ _GEOMETRY_TYPES).
Proof. by intros ->. Qed.

Lemma from_geo_json_recognized d t :
  dict_get d "type" = Some (PStr t) → t ∈ _GEOMETRY_TYPES →
  from_geo_json (PDict d) = (g ←! shape (PDict d); Returns (mkGeometry g)).
Proof.
  intros Ht Hin. unfold from_geo_json.
  by rewrite (recognized_type _ _ Ht), bool_decide_eq_true_2.
Qed.

Lemma geom_type_recognized g : geom_type g ∈ _GEOMETRY_TYPES.
Proof. destruct g; by apply (bool_decide_unpack _). Qed.

Lemma from_geo_json_inv i g : from_geo_json i = Returns g → shape i = Returns (geom g).
Proof.
  unfold from_geo_json. destruct i as [| | | | | | |d|]; try discriminate.
  destruct (negb _); [discriminate|].
  unfold bind. destruct (shape (PDict d)); [|discriminate]. by intros [= <-].
Qed.

Lemma from_geo_json_to_geo_json (g : Geometry) : from_geo_json (to_geo_json g) = Returns g.
Proof.
  destruct (to_geo_json_type g) as (d & Hd & Ht). rewrite Hd.
  rewrite (from_geo_json_recognized _ _ Ht (geom_type_recognized _)).
  rewrite <- Hd. unfold to_geo_json. rewrite shape_mapping. by destruct g.
Qed.

(** C1: decoding the GeoJSON object that encodes a [Geometry] yields a
    [Geometry] equal to it; and whenever an input decodes, encoding the
    decoded value gives an object with the same geometry as the input:
    the same [type], and the same numbers in the same nesting. *)
Theorem round_trip :
  (∀ g, ∃ g', from_geo_json (to_geo_json g) = Returns g'
              ∧ Geometry___eq__ g' (PGeom g) = true)
  ∧ (∀ i g, from_geo_json i = Returns g → SameGeometry i (to_geo_json g)).
Proof.
  split.
  - intros g. exists g. split; [apply from_geo_json_to_geo_json|].
    cbn [Geometry___eq__]. by apply geom_eqb_eq.
  - intros i g Hi. apply same_geometry_shape. by apply from_geo_json_inv.
Qed.

(** *** Well-formed inputs are the ones [shape] decodes *)

Lemma WellFormed_nested_ind (P : PyVal → Prop) :
  (∀ d t n c,
     dict_get d "type" = Some (PStr t) → coordinate_depth t = Some n →
     dict_get d "coordinates" = Some c → nested_numbers n c = true →
     P (PDict d)) →
  (∀ d x l,
     dict_get d "type" = Some (PStr "GeometryCollection") →
     dict_get d "geometries" = Some x → sequence x = Some l →
     Forall P l → P (PDict d)) →
  ∀ v, WellFormed v → P v.
Proof.
  intros Hc Hg. fix IH 2.
  intros v [d t n c H1 H2 H3 H4|d x l H1 H2 H3 HF].
  - by eapply Hc.
  - eapply Hg; [done..|].
    clear -IH HF. revert l HF. fix IHl 2.
    intros l [|y l' Hy Hl]; constructor; [by apply IH|by apply IHl].
Qed.

Lemma Forall_exists_Forall2 {A B} (R : A → B → Prop) (l : list A) :
  Forall (λ x, ∃ y, R x y) l → ∃ k, Forall2 R l k.
Proof.
  induction 1 as [|x l [y Hy] _ [k Hk]]; [by exists []|].
  exists (y :: k). by constructor.
Qed.

Lemma WellFormed_shape v :
  WellFormed v → ∃ g, shape v = Returns g.
Proof.
  induction 1 as [d t n c Ht Hn Hc Hnest|d x l Ht Hx Hl IH] using WellFormed_nested_ind;
    rewrite shape_PDict; unfold shape_dict; rewrite Ht.
  - unfold coordinate_depth in Hn. revert Hn. unfold coordinates, member. rewrite Hc.
    cbn [bind]. each_eqb; intros [= <-].
    + apply nested_position in Hnest as [a ->]. by eexists.
    + apply nested_line in Hnest as [a ->]. by eexists.
    + apply nested_line in Hnest as [a ->].
      cbn [String.eqb Ascii.eqb Bool.eqb]. by eexists.
    + apply nested_rings in Hnest as [a ->].
      cbn [String.eqb Ascii.eqb Bool.eqb]. by eexists.
    + apply nested_rings in Hnest as [a ->].
      cbn [String.eqb Ascii.eqb Bool.eqb]. by eexists.
    + apply nested_polygons in Hnest as [a ->].
      cbn [String.eqb Ascii.eqb Bool.eqb]. by eexists.
  - cbn [String.eqb Ascii.eqb Bool.eqb]. unfold member. rewrite Hx. cbn [bind].
    rewrite Hl. cbn [well_nested bind].
    apply Forall_exists_Forall2 in IH as [gs Hgs].
    apply shape_all_Returns in Hgs. rewrite Hgs. by eexists.
Qed.

Lemma shape_WellFormed (g : BaseGeometry) : ∀ v, shape v = Returns g → WellFormed v.
Proof.
  induction g as [c|cs|rs|cs|ls|ps|gs IH] using BaseGeometry_nested_ind;
    intros i Hi; apply shape_inv in Hi as (d & -> & Ht & Hd); cbn [geom_type] in Ht.
  1-6: destruct Hd as (v & Hv & Hp).
  - eapply (wf_coordinates _ "Point" 1); [done..|]. by apply nested_position.
  - eapply (wf_coordinates _ "LineString" 2); [done..|]. by apply nested_line.
  - eapply (wf_coordinates _ "Polygon" 3); [done..|]. by apply nested_rings.
  - eapply (wf_coordinates _ "MultiPoint" 2); [done..|]. by apply nested_line.
  - eapply (wf_coordinates _ "MultiLineString" 3); [done..|]. by apply nested_rings.
  - eapply (wf_coordinates _ "MultiPolygon" 4); [done..|]. by apply nested_polygons.
  - destruct Hd as (x & l & Hx & Hl & Hall).
    eapply (wf_geometries _ x l); [done..|]. clear Hx Hl.
    induction Hall as [|y g l gs Hy _ IHall]; [constructor|].
    apply Forall_cons_1 in IH as [Hg Hgs]. constructor; [by eapply Hg|by apply IHall].
Qed.

(** C5: [from_geo_json] raises [TypeError] when the input is not a dict;
    raises [ValueError] when the dict has no [type], or a [type] that is
    not one of the seven kind names; for a dict with a recognized [type]
    it fails when the kind-specific member is missing or not properly
    nested, with the exception the parse raised, and otherwise returns the
    [Geometry] that wraps the parsed shape, whose kind is the [type] of
    the input. *)
Theorem from_geo_json_contract (value : PyVal) :
  ((∀ d, value ≠ PDict d) →
     ∃ msg, from_geo_json value = Raises (mkExc TypeError msg))
  ∧ (∀ d, value = PDict d →
       ((∀ t, dict_get d "type" = Some (PStr t) → t ∉ _GEOMETRY_TYPES) →
          ∃ msg, from_geo_json value = Raises (mkExc ValueError msg))
       ∧ (∀ t, dict_get d "type" = Some (PStr t) → t ∈ _GEOMETRY_TYPES →
            (¬ WellFormed value →
               ∃ e, shape value = Raises e ∧ from_geo_json value = Raises e)
            ∧ (WellFormed value →
                 ∃ g, shape value = Returns g ∧ geom_type g = t
                      ∧ from_geo_json value = Returns (mkGeometry g)))).
Proof.
  split.
  - intros Hnd. destruct value; try (by eexists). by destruct (Hnd d).
  - intros d ->. split.
    + intros Ht. unfold from_geo_json.
      destruct (dict_get d "type") as [[| | | |t| | | |]|]; try (by eexists).
      cbn [from_option id in_str_tuple].
      rewrite bool_decide_eq_false_2 by (by apply Ht). by eexists.
    + intros t Ht Hin. rewrite (from_geo_json_recognized _ _ Ht Hin). split.
      * intros Hwf. destruct (shape (PDict d)) as [g|e] eqn:Hs; [|by exists e].
        destruct Hwf. by eapply shape_WellFormed.
      * intros Hwf. apply WellFormed_shape in Hwf as [g Hg]. exists g.
        rewrite Hg. split; [done|]. split; [|done].
        apply shape_inv in Hg as (d' & [= <-] & Ht' & _). congruence.
Qed.

(** For a dict with a recognized [type], decoding succeeds exactly on the
    well-formed objects, and the kind of the result is the [type]. *)
Lemma from_geo_json_well_formed d t :
  dict_get d "type" = Some (PStr t) → t ∈ _GEOMETRY_TYPES →
  (¬ WellFormed (PDict d) → ∃ e, from_geo_json (PDict d) = Raises e)
  ∧ (WellFormed (PDict d) →
       ∃ g, geom_type g = t ∧ from_geo_json (PDict d) = Returns (mkGeometry g)).
Proof.
  intros Ht Hin. rewrite (from_geo_json_recognized _ _ Ht Hin). split.
  - intros Hwf. destruct (shape (PDict d)) as [g|e] eqn:Hs; [|by exists e].
    destruct Hwf. by eapply shape_WellFormed.
  - intros Hwf. apply WellFormed_shape in Hwf as [g Hg]. exists g.
    rewrite Hg. split; [|done].
    apply shape_inv in Hg as (d' & [= <-] & Ht' & _). congruence.
Qed.

(** ** Equality and hashing *)

Lemma shape_all_mapping gs : shape_all shape (mapping <$> gs) = Returns gs.
Proof.
  apply shape_all_Returns, Forall2_fmap_l, Forall_Forall2_diag, Forall_forall.
  intros g _. apply shape_mapping.
Qed.

(** A shape is determined by its kind and its coordinate data. *)
Lemma geom_type_data_inj g h :
  geom_type g = geom_type h → geom_data g = geom_data h → g = h.
Proof.
  destruct g, h; cbn [geom_type geom_data]; try discriminate; intros _ Hd.
  - apply (f_equal parse_position) in Hd. rewrite !parse_position_value in Hd. congruence.
  - apply (f_equal parse_line) in Hd. rewrite !parse_line_value in Hd. congruence.
  - apply (f_equal parse_rings) in Hd. rewrite !parse_rings_value in Hd. congruence.
  - apply (f_equal parse_line) in Hd. rewrite !parse_line_value in Hd. congruence.
  - apply (f_equal parse_rings) in Hd. rewrite !parse_rings_value in Hd. congruence.
  - apply (f_equal parse_polygons) in Hd. rewrite !parse_polygons_value in Hd. congruence.
  - injection Hd as Hd. apply (f_equal (shape_all shape)) in Hd.
    rewrite !shape_all_mapping in Hd. congruence.
Qed.

Lemma decoded_kind i g t d :
  from_geo_json i = Returns g → i = PDict d → dict_get d "type" = Some (PStr t) →
  geom_type (geom g) = t.
Proof.
  intros Hi -> Ht. apply from_geo_json_inv, shape_inv in Hi as (d' & [= <-] & Ht' & _).
  congruence.
Qed.

(** ** The cases of section 8 of the spec, evaluated *)

Example construct_empty :
  ∃ msg, GeometryTypeConstraint___init__ [] = Raises (mkExc ValueError msg).
Proof. by eexists. Qed.

Example construct_duplicate :
  GeometryTypeConstraint___init__ ["Point"; "Point"]
  = Raises (mkExc ValueError [FLit "allowed_types contains duplicate(s)"]).
Proof. reflexivity. Qed.

Example construct_unknown :
  ∃ msg, GeometryTypeConstraint___init__ ["Point"; "Blob"] = Raises (mkExc ValueError msg).
Proof. by eexists. Qed.

Example construct_sorted :
  GeometryTypeConstraint___init__ ["Polygon"; "Point"]
  = Returns (mkConstraint ["Point"; "Polygon"]).
Proof. reflexivity. Qed.

Example decode_triangle :
  ∃ msg, from_geo_json (PDict [("type", PStr "Triangle"); ("coordinates", PList [])])
         = Raises (mkExc ValueError msg).
Proof. by eexists. Qed.

Example decode_not_a_map :
  ∃ msg, from_geo_json (PStr "not a map") = Raises (mkExc TypeError msg).
Proof. by eexists. Qed.

Example decode_no_type :
  ∃ msg, from_geo_json (PDict [("coordinates", PList [PInt 0; PInt 0])])
         = Raises (mkExc ValueError msg).
Proof. by eexists. Qed.

Example emit_polygon :
  GeometryTypeConstraint___get_pydantic_json_schema__ (mkConstraint ["Polygon"])
  = Returns _POLYGON_GEOMETRY_JSON_SCHEMA.
Proof. reflexivity. Qed.

Example emit_two_way :
  GeometryTypeConstraint___init__ ["Polygon"; "MultiPolygon"]
  = Returns (mkConstraint ["MultiPolygon"; "Polygon"])
  ∧ GeometryTypeConstraint___get_pydantic_json_schema__
      (mkConstraint ["MultiPolygon"; "Polygon"])
    = Returns (PDict [("oneOf", PTuple [_MULTI_POLYGON_GEOMETRY_JSON_SCHEMA;
                                        _POLYGON_GEOMETRY_JSON_SCHEMA])]).
Proof. split; reflexivity. Qed.

(** A constraint on anything but [Geometry] is refused when the schema is
    built. *)
Example attach_to_other_class c :
  ∃ msg, GeometryTypeConstraint___get_pydantic_core_schema__ c (OtherClass "str") handler
         = Raises (mkExc TypeError msg).
Proof. by eexists. Qed.

(** The fragments accept the objects they describe: a point conforms to
    the [Point] fragment; what conforms to the [GeometryCollection]
    fragment is a collection whose [geometries] is one geometry object. *)
Example point_conforms :
  conforms _POINT_GEOMETRY_JSON_SCHEMA
    (PDict [("type", PStr "Point"); ("coordinates", PList [PInt 0; PInt 0])]) = true.
Proof. reflexivity. Qed.

Example short_point_does_not_conform :
  conforms _POINT_GEOMETRY_JSON_SCHEMA
    (PDict [("type", PStr "Point"); ("coordinates", PList [PInt 0])]) = false.
Proof. reflexivity. Qed.

Example collection_of_an_object_conforms :
  conforms _GEOMETRY_COLLECTION_JSON_SCHEMA
    (PDict [("type", PStr "GeometryCollection");
            ("geometries",
             PDict [("type", PStr "Point"); ("coordinates", PList [PInt 0; PInt 0])])])
  = true.
Proof. reflexivity. Qed.

(** With a context whose [loc_prefix] is a list, building the location
    fails inside the handler and that [TypeError] is what gets out. *)
Example validator_list_prefix :
  ∃ msg, validator (PStr "not a map")
           (mkInfo (PDict [("loc_prefix", PList [PStr "geometry"])]))
         = Raises (Builtin (mkExc TypeError msg)).
Proof. by eexists. Qed.

(** ** The theorems at concrete inputs *)

Lemma constraint_construction_witness :
  GeometryTypeConstraint___init__ ["Point"; "Polygon"]
  = Returns (mkConstraint ["Point"; "Polygon"])
  ∧ GeometryTypeConstraint___init__ ["Polygon"; "Point"]
    = Returns (mkConstraint ["Point"; "Polygon"]).
Proof.
  split; [reflexivity|].
  destruct (constraint_construction ["Point"; "Polygon"]) as (_ & _ & H).
  destruct (H (mkConstraint ["Point"; "Polygon"]) eq_refl) as (_ & _ & Hb).
  apply Hb. apply Permutation_swap.
Defined.

Lemma schema_emission_witness :
  GeometryTypeConstraint___init__ ["Polygon"] = Returns (mkConstraint ["Polygon"])
  ∧ GeometryTypeConstraint___get_pydantic_json_schema__ (mkConstraint ["Polygon"])
    = Returns _POLYGON_GEOMETRY_JSON_SCHEMA.
Proof.
  split; [reflexivity|].
  destruct (schema_emission ["Polygon"] (mkConstraint ["Polygon"]) eq_refl)
    as (H1 & _ & _).
  destruct (H1 "Polygon" eq_refl) as (f & Hf & _ & _ & Hs).
  injection Hf as <-. exact Hs.
Defined.


Lemma round_trip_witness :
  from_geo_json (PDict [("type", PStr "Point"); ("coordinates", PList [PInt 1; PInt 2])])
  = Returns (mkGeometry (Point [float_of_int 1; float_of_int 2]))
  ∧ SameGeometry
      (PDict [("type", PStr "Point"); ("coordinates", PList [PInt 1; PInt 2])])
      (to_geo_json (mkGeometry (Point [float_of_int 1; float_of_int 2]))).
Proof.
  split; [reflexivity|]. apply (proj2 round_trip). reflexivity.
Defined.

Lemma from_geo_json_contract_witness :
  ¬ WellFormed (PDict [("type", PStr "Point")])
  ∧ from_geo_json (PDict [("type", PStr "Point")])
    = Raises (mkExc KeyError [FRepr (PStr "coordinates")]).
Proof.
  assert (¬ WellFormed (PDict [("type", PStr "Point")])) as Hnwf.
  { intros Hwf. inversion Hwf as [d t n c Ht Hn Hc|d x l Ht]; discriminate. }
  split; [exact Hnwf|].
  destruct (from_geo_json_contract (PDict [("type", PStr "Point")])) as (_ & H).
  destruct (H _ eq_refl) as (_ & H3).
  assert ("Point" ∈ _GEOMETRY_TYPES) as Hin by (by apply (bool_decide_unpack _)).
  destruct (H3 "Point" eq_refl Hin) as (Hfail & _).
  destruct (Hfail Hnwf) as (e & Hs & He).
  injection Hs as <-. exact He.
Defined.

(** * Further properties of the module *)

(** ** What a constructed constraint holds *)

(** A constraint that was constructed holds at least one kind and at most
    seven, each of them recognized, none of them twice, and as many as
    were given. *)
Theorem constraint_invariants (a : list string) (c : GeometryTypeConstraint) :
  GeometryTypeConstraint___init__ a = Returns c →
  allowed_types c ≠ []
  ∧ NoDup (allowed_types c)
  ∧ Forall (λ k, k ∈ _GEOMETRY_TYPES) (allowed_types c)
  ∧ (length (allowed_types c) ≤ 7)%nat
  ∧ length (allowed_types c) = length a.
Proof.
  intros Hc. pose proof (allowed_types_recognized _ _ Hc) as HF.
  apply GeometryTypeConstraint___init___returns in Hc.
  apply _validate_geometry_types_returns in Hc as (Hne & _ & Hnd & Ht).
  assert (allowed_types c ≡ₚ a) as Hp by (rewrite Ht; apply sorted_Permutation).
  assert (NoDup (allowed_types c)) as Hnd' by (by rewrite Hp).
  repeat split; [|done|done| |by rewrite Hp].
  - intros Hnil. rewrite Hnil in Hp. by apply Permutation_nil_l in Hp.
  - change 7%nat with (length _GEOMETRY_TYPES). apply submseteq_length.
    apply NoDup_submseteq; [done|]. by apply list.Forall_forall.
Qed.

Lemma constraint_invariants_witness :
  GeometryTypeConstraint___init__ ["Polygon"; "Point"]
  = Returns (mkConstraint ["Point"; "Polygon"])
  ∧ NoDup ["Point"; "Polygon"].
Proof.
  split; [reflexivity|].
  destruct (constraint_invariants ["Polygon"; "Point"]
              (mkConstraint ["Point"; "Polygon"]) eq_refl) as (_ & Hnd & _).
  exact Hnd.
Defined.

(** The stored kinds are canonical: constructing a constraint again from
    the kinds a constraint holds gives the same constraint. *)
Theorem constraint_canonical (a : list string) (c : GeometryTypeConstraint) :
  GeometryTypeConstraint___init__ a = Returns c →
  GeometryTypeConstraint___init__ (allowed_types c) = Returns c.
Proof.
  intros Hc. apply GeometryTypeConstraint___init___returns in Hc.
  pose proof Hc as Hc'.
  apply _validate_geometry_types_returns in Hc' as (Hne & HF & Hnd & Ht).
  assert (allowed_types c ≡ₚ a) as Hp by (rewrite Ht; apply sorted_Permutation).
  apply GeometryTypeConstraint___init___returns, _validate_geometry_types_returns.
  repeat split.
  - intros Hnil. rewrite Hnil in Hp. by apply Permutation_nil_l in Hp.
  - by rewrite Hp.
  - by rewrite Hp.
  - rewrite Ht at 1. apply sorted_canonical. by symmetry.
Qed.

Lemma constraint_canonical_witness :
  GeometryTypeConstraint___init__ ["Polygon"; "MultiPoint"; "Point"]
  = Returns (mkConstraint ["MultiPoint"; "Point"; "Polygon"])
  ∧ GeometryTypeConstraint___init__ ["MultiPoint"; "Point"; "Polygon"]
    = Returns (mkConstraint ["MultiPoint"; "Point"; "Polygon"]).
Proof.
  split; [reflexivity|].
  apply (constraint_canonical ["Polygon"; "MultiPoint"; "Point"]
           (mkConstraint ["MultiPoint"; "Point"; "Polygon"])).
  reflexivity.
Defined.

(** ** Which error the constructor raises *)




(** ** The lookup table and the schema a constraint emits *)

(** Subscripting the table succeeds for the seven kinds and raises
    [KeyError], with the name as its argument, for any other name. *)
Theorem lookup_table_keys (k : string) :
  (k ∈ _GEOMETRY_TYPES →
     ∃ f, subscript _GEOMETRY_JSON_SCHEMA k = Returns f ∧ fragment_kind f = Some k)
  ∧ (k ∉ _GEOMETRY_TYPES →
       subscript _GEOMETRY_JSON_SCHEMA k = Raises (mkExc KeyError [FRepr (PStr k)])).
Proof.
  split.
  - intros Hk. apply fragment_is_Some in Hk as [f Hf]. exists f.
    split; [by apply subscript_fragment|].
    unfold fragment_kind. by rewrite (fragment_const _ _ Hf).
  - intros Hk. unfold subscript.
    destruct (dict_get _GEOMETRY_JSON_SCHEMA k) as [f|] eqn:Hf; [|done].
    destruct Hk. apply fragment_is_Some. by exists f.
Qed.

Lemma lookup_table_keys_witness :
  subscript _GEOMETRY_JSON_SCHEMA "LinearRing"
  = Raises (mkExc KeyError [FRepr (PStr "LinearRing")]).
Proof.
  apply (lookup_table_keys "LinearRing").
  intros Hin. by apply (bool_decide_pack _) in Hin.
Defined.

Lemma fragment_kinds_of_alternatives (ks : list string) (fs : list PyVal) :
  Forall2 (λ k f, fragment k = Some f) ks fs → mapM fragment_kind fs = Some ks.
Proof.
  intros H. apply mapM_Some, Forall2_flip.
  eapply list.Forall2_impl; [exact H|].
  intros k f Hf. unfold fragment_kind. by rewrite (fragment_const _ _ Hf).
Qed.

(** For every constraint that was constructed, emission returns a schema,
    and the kinds that schema offers, read back from the [const] of each
    alternative, are the kinds the constraint allows, in the same order. *)
Theorem emitted_kinds_are_allowed (a : list string) (c : GeometryTypeConstraint) :
  GeometryTypeConstraint___init__ a = Returns c →
  ∃ s, GeometryTypeConstraint___get_pydantic_json_schema__ c = Returns s
       ∧ emitted_kinds s = Some (allowed_types c).
Proof.
  intros Hc. pose proof (allowed_types_recognized _ _ Hc) as HF.
  unfold GeometryTypeConstraint___get_pydantic_json_schema__.
  destruct (Nat.eqb (length (allowed_types c)) 1) eqn:Hlen.
  - destruct (allowed_types c) as [|k [|? ?]] eqn:Hk; try discriminate.
    apply Forall_cons_1 in HF as [Hin _].
    apply fragment_is_Some in Hin as [f Hf]. exists f.
    split; [by apply subscript_fragment|].
    unfold emitted_kinds, fragment_kind.
    destruct (fragment_no_oneOf _ _ Hf) as [_ ->].
    by rewrite (fragment_const _ _ Hf).
  - destruct (tuple_map_fragments _ HF) as (fs & Hfs & Hmap).
    exists (PDict [("oneOf", PTuple fs)]). rewrite Hmap. split; [done|].
    unfold emitted_kinds. cbn [at_path dict_get String.eqb Ascii.eqb Bool.eqb].
    cbn [mbind option_bind at_path sequence].
    by apply fragment_kinds_of_alternatives.
Qed.

Lemma emitted_kinds_are_allowed_witness :
  GeometryTypeConstraint___init__ ["Polygon"; "MultiPolygon"]
  = Returns (mkConstraint ["MultiPolygon"; "Polygon"])
  ∧ ∃ s, GeometryTypeConstraint___get_pydantic_json_schema__
           (mkConstraint ["MultiPolygon"; "Polygon"]) = Returns s
         ∧ emitted_kinds s = Some ["MultiPolygon"; "Polygon"].
Proof.
  split; [reflexivity|].
  apply (emitted_kinds_are_allowed ["Polygon"; "MultiPolygon"]
           (mkConstraint ["MultiPolygon"; "Polygon"])).
  reflexivity.
Defined.

(** Every fragment of the table is an object schema whose [type] property
    is the constant kind name and whose [bbox] property is the bounding-box
    schema; it requires [type] and the member of its kind, [coordinates] or
    [geometries], and nothing else, and has no property for the member of
    the other sort. *)
Theorem fragment_shape (k : string) (f : PyVal) :
  fragment k = Some f →
  at_path f ["type"] = Some (PStr "object")
  ∧ at_path f ["properties"; "type"]
    = Some (PDict [("type", PStr "string"); ("const", PStr k)])
  ∧ at_path f ["properties"; "bbox"] = Some _BBOX_JSON_SCHEMA
  ∧ at_path f ["required"] = Some (PList [PStr "type"; PStr (kind_member k)])
  ∧ is_Some (at_path f ["properties"; kind_member k])
  ∧ at_path f ["properties"; other_member k] = None.
Proof.
  unfold fragment, _GEOMETRY_JSON_SCHEMA. cbn [dict_get].
  repeat (first_eqb k; [intros [= <-]; repeat split; by eexists|]).
  discriminate.
Qed.

Lemma fragment_shape_witness :
  fragment "MultiPoint" = Some _MULTI_POINT_GEOMETRY_JSON_SCHEMA
  ∧ at_path _MULTI_POINT_GEOMETRY_JSON_SCHEMA ["required"]
    = Some (PList [PStr "type"; PStr "coordinates"]).
Proof.
  split; [reflexivity|].
  destruct (fragment_shape "MultiPoint" _MULTI_POINT_GEOMETRY_JSON_SCHEMA eq_refl)
    as (_ & _ & _ & H & _).
  exact H.
Defined.

(** ** The location of an error *)

(** How the location is built from the validation context: a context that
    is [None] or otherwise false, and a dict without [loc_prefix], give
    the location [("value",)]; a dict with a tuple under [loc_prefix]
    gives that tuple followed by ["value"]; any other object under
    [loc_prefix] makes the concatenation raise [TypeError], and a true
    context that is not a dict makes the lookup raise [AttributeError].
    A location that is built always ends in ["value"]. *)
Theorem error_loc_cases (info : ValidationInfo) :
  (truthy (context info) = false → error_loc info = Returns [PStr "value"])
  ∧ (∀ d, context info = PDict d → dict_get d "loc_prefix" = None →
       error_loc info = Returns [PStr "value"])
  ∧ (∀ d l, context info = PDict d → dict_get d "loc_prefix" = Some (PTuple l) →
       error_loc info = Returns (l ++ [PStr "value"]))
  ∧ (∀ d x, context info = PDict d → dict_get d "loc_prefix" = Some x →
       (∀ l, x ≠ PTuple l) →
       ∃ msg, error_loc info = Raises (mkExc TypeError msg))
  ∧ (truthy (context info) = true → (∀ d, context info ≠ PDict d) →
       ∃ msg, error_loc info = Raises (mkExc AttributeError msg))
  ∧ (∀ loc, error_loc info = Returns loc → ∃ prefix, loc = prefix ++ [PStr "value"]).
Proof.
  unfold error_loc. destruct info as [ctx]. cbn [context].
  split; [|split; [|split; [|split; [|split]]]].
  - by intros ->.
  - intros d -> Hd. destruct (truthy (PDict d)); cbn [get_default bind]; [|done].
    by rewrite Hd.
  - intros d l -> Hd. destruct d as [|kv d]; [done|].
    cbn [truthy length Nat.eqb negb get_default bind]. by rewrite Hd.
  - intros d x -> Hd Hx. destruct d as [|kv d]; [done|].
    cbn [truthy length Nat.eqb negb get_default bind]. rewrite Hd. cbn [from_option id].
    destruct x; try (by eexists). by destruct (Hx l).
  - intros -> Hnd. destruct ctx; try (by eexists). by destruct (Hnd d).
  - intros loc. destruct (truthy ctx).
    + destruct ctx; try discriminate. cbn [get_default bind].
      destruct (from_option id (PTuple []) (dict_get d "loc_prefix")); try discriminate.
      intros [= <-]. by eexists.
    + intros [= <-]. by exists [].
Qed.

Lemma error_loc_cases_witness :
  error_loc (mkInfo (PDict [("loc_prefix", PTuple [PStr "features"; PInt 3])]))
  = Returns [PStr "features"; PInt 3; PStr "value"].
Proof.
  destruct (error_loc_cases
              (mkInfo (PDict [("loc_prefix", PTuple [PStr "features"; PInt 3])])))
    as (_ & _ & H & _).
  exact (H _ [PStr "features"; PInt 3] eq_refl eq_refl).
Defined.

(** ** The kind check *)

(** A value of a kind that is not allowed never passes, whatever the
    context. *)
Lemma validate_not_allowed_never_returns c g info v :
  geom_type (geom g) ∉ allowed_types c →
  GeometryTypeConstraint_validate c (PGeom g) info ≠ Returns v.
Proof.
  intros Hin. unfold GeometryTypeConstraint_validate. cbn [geom_type_of lift_exc bind].
  rewrite bool_decide_eq_false_2 by done. cbn [negb].
  unfold bind. by destruct (lift_exc (error_loc info)).
Qed.

(** [validate] returns, with [None], exactly for the values whose kind is
    among the allowed ones, whatever the context; for a value of another
    kind, with a context that supplies a location prefix, it raises one
    line error of type [value_error] at the prefix followed by ["value"],
    with the value as input and a message that carries the kind and the
    allowed kinds. *)
Theorem kind_check (c : GeometryTypeConstraint) (g : Geometry) :
  (∀ info v, GeometryTypeConstraint_validate c (PGeom g) info = Returns v
             ↔ geom_type (geom g) ∈ allowed_types c ∧ v = PNone)
  ∧ (∀ info prefix,
       loc_prefix info = Some prefix →
       geom_type (geom g) ∉ allowed_types c →
       GeometryTypeConstraint_validate c (PGeom g) info
       = Raises (ValidationError
                   {| ve_title := "GeometryTypeConstraint";
                      ve_line_errors :=
                        [ {| ied_type := "value_error";
                             ied_loc := prefix ++ [PStr "value"];
                             ied_input := PGeom g;
                             ied_ctx :=
                               [("error",
                                 [FLit "geometry type not allowed: ";
                                  FRepr (PStr (geom_type (geom g)));
                                  FLit " (allowed values: ";
                                  FRepr (str_tuple (allowed_types c));
                                  FLit ")"])] |} ] |})).
Proof.
  split.
  - intros info v.
    destruct (decide (geom_type (geom g) ∈ allowed_types c)) as [Hin|Hin].
    + rewrite (validate_allowed _ _ _ Hin). split; [by intros [= <-]|by intros [_ ->]].
    + split; [|by intros [? _]].
      intros Hv. by apply validate_not_allowed_never_returns in Hv.
  - intros info prefix Hp Hin. by rewrite (validate_not_allowed _ _ _ _ Hin Hp).
Qed.

Lemma kind_check_witness :
  GeometryTypeConstraint_validate (mkConstraint ["MultiPoint"; "Point"])
    (PGeom (mkGeometry (Point []))) (mkInfo (PStr "not a dict")) = Returns PNone
  ∧ ∃ e, GeometryTypeConstraint_validate (mkConstraint ["MultiPoint"; "Point"])
           (PGeom (mkGeometry (LineString []))) (mkInfo PNone)
         = Raises (ValidationError e).
Proof.
  split.
  - apply (kind_check (mkConstraint ["MultiPoint"; "Point"]) (mkGeometry (Point []))).
    split; [by apply (bool_decide_unpack _)|reflexivity].
  - destruct (kind_check (mkConstraint ["MultiPoint"; "Point"])
                (mkGeometry (LineString []))) as (_ & H).
    eexists. apply (H (mkInfo PNone) [] eq_refl).
    intros Hin. by apply (bool_decide_pack _) in Hin.
Defined.

(** The constraint over all seven kinds is constructed without error, and
    its check passes every value whose kind is one of the seven, whatever
    the context. *)
Theorem all_kinds_allowed (g : Geometry) (info : ValidationInfo) :
  geom_type (geom g) ∈ _GEOMETRY_TYPES →
  ∃ c, _ALL_GEOMETRY_ALLOWED = Returns c
       ∧ allowed_types c ≡ₚ _GEOMETRY_TYPES
       ∧ GeometryTypeConstraint_validate c (PGeom g) info = Returns PNone.
Proof.
  intros Hin. eexists. split; [reflexivity|]. cbn [allowed_types].
  assert (sorted _GEOMETRY_TYPES ≡ₚ _GEOMETRY_TYPES) as Hp by apply sorted_Permutation.
  split; [exact Hp|]. apply validate_allowed. cbn [allowed_types]. by rewrite Hp.
Qed.

Lemma all_kinds_allowed_witness :
  "Polygon" ∈ _GEOMETRY_TYPES
  ∧ ∃ c, _ALL_GEOMETRY_ALLOWED = Returns c
         ∧ allowed_types c ≡ₚ _GEOMETRY_TYPES
         ∧ GeometryTypeConstraint_validate c (PGeom (mkGeometry (Polygon [])))
             (mkInfo (PStr "not a dict")) = Returns PNone.
Proof.
  assert ("Polygon" ∈ _GEOMETRY_TYPES) as Hin by (by apply (bool_decide_unpack _)).
  split; [exact Hin|].
  exact (all_kinds_allowed (mkGeometry (Polygon [])) (mkInfo (PStr "not a dict")) Hin).
Defined.

(** ** Attaching a constraint to a usage site *)



(** ** Validation through a constrained field *)

Lemma constrained_decoded c value info g :
  from_geo_json value = Returns g →
  (v ←! validator value info; GeometryTypeConstraint_validate c v info)
  = GeometryTypeConstraint_validate c (PGeom g) info.
Proof. intros Hg. unfold validator. by rewrite Hg. Qed.

(** What the composed validation returns, when it returns. *)
Lemma constrained_Returns c value info v :
  (v0 ←! validator value info; GeometryTypeConstraint_validate c v0 info) = Returns v →
  v = PNone
  ∧ ∃ g, from_geo_json value = Returns g ∧ geom_type (geom g) ∈ allowed_types c.
Proof.
  intros Hv. destruct (from_geo_json value) as [g|e] eqn:Hg.
  - rewrite (constrained_decoded _ _ _ _ Hg) in Hv.
    destruct (decide (geom_type (geom g) ∈ allowed_types c)) as [Hin|Hin].
    + rewrite (validate_allowed _ _ _ Hin) in Hv. injection Hv as <-.
      split; [done|]. by exists g.
    + unfold GeometryTypeConstraint_validate in Hv.
      cbn [geom_type_of lift_exc bind] in Hv.
      rewrite bool_decide_eq_false_2 in Hv by done. cbn [negb] in Hv.
      unfold bind in Hv. destruct (lift_exc (error_loc info)); discriminate.
  - unfold validator in Hv. rewrite Hg in Hv. unfold bind in Hv.
    destruct (lift_exc (error_loc info)); discriminate.
Qed.

(** At a [Geometry] field with a constraint, an input that does not decode
    gets the outcome of [Geometry]'s own validator and the kind check does
    not run; an input that decodes gets the outcome of the kind check on
    the decoded value.  So whenever validation returns, the input decoded
    to a value of an allowed kind, and the value returned is [None]. *)
Theorem constrained_pipeline (c : GeometryTypeConstraint) (value : PyVal)
    (info : ValidationInfo) :
  ∃ schema,
    GeometryTypeConstraint___get_pydantic_core_schema__ c GeometryClass handler
    = Returns schema
    ∧ (∀ e, from_geo_json value = Raises e →
         validate_python schema value info
         = validate_python Geometry___get_pydantic_core_schema__ value info)
    ∧ (∀ g, from_geo_json value = Returns g →
         validate_python schema value info
         = GeometryTypeConstraint_validate c (PGeom g) info)
    ∧ (∀ v, validate_python schema value info = Returns v →
         v = PNone
         ∧ ∃ g, from_geo_json value = Returns g
                ∧ geom_type (geom g) ∈ allowed_types c).
Proof.
  eexists. split; [reflexivity|].
  cbn [with_info_after_validator_function validate_python handler
       Geometry___get_pydantic_core_schema__ with_info_plain_validator_function].
  split; [|split].
  - intros e He. unfold validator. rewrite He. unfold bind.
    by destruct (lift_exc (error_loc info)).
  - intros g Hg. by apply constrained_decoded.
  - intros v Hv. by apply constrained_Returns in Hv.
Qed.

Lemma constrained_pipeline_witness :
  ∃ schema,
    GeometryTypeConstraint___get_pydantic_core_schema__ (mkConstraint ["Point"])
      GeometryClass handler = Returns schema
    ∧ validate_python schema (PStr "not a map") (mkInfo PNone)
      = validate_python Geometry___get_pydantic_core_schema__ (PStr "not a map")
          (mkInfo PNone).
Proof.
  destruct (constrained_pipeline (mkConstraint ["Point"]) (PStr "not a map")
              (mkInfo PNone)) as (schema & Hs & Hfail & _).
  exists schema. split; [exact Hs|]. eapply Hfail. reflexivity.
Defined.

(** Two constraints on one field, the second wrapping the schema of the
    first: validation never returns.  The check of the second constraint
    receives what the first one returned, which is [None], not a
    [Geometry]. *)
Theorem stacked_constraints (c1 c2 : GeometryTypeConstraint) (value : PyVal)
    (info : ValidationInfo) :
  ∃ schema1 schema2,
    GeometryTypeConstraint___get_pydantic_core_schema__ c1 GeometryClass handler
    = Returns schema1
    ∧ GeometryTypeConstraint___get_pydantic_core_schema__ c2 GeometryClass (λ _, schema1)
      = Returns schema2
    ∧ (∀ v, validate_python schema2 value info ≠ Returns v)
    ∧ (∀ v, validate_python schema1 value info = Returns v →
         ∃ msg, validate_python schema2 value info
                = Raises (Builtin (mkExc AttributeError msg))).
Proof.
  do 2 eexists. split; [reflexivity|]. split; [reflexivity|].
  cbn [with_info_after_validator_function validate_python handler
       Geometry___get_pydantic_core_schema__ with_info_plain_validator_function].
  split.
  - intros v Hv.
    destruct (v0 ←! validator value info; GeometryTypeConstraint_validate c1 v0 info)
      as [v1|e] eqn:H1; [|discriminate].
    apply constrained_Returns in H1 as [-> _]. discriminate.
  - intros v Hv. rewrite Hv. apply constrained_Returns in Hv as [-> _]. by eexists.
Qed.

Lemma stacked_constraints_witness :
  ∃ schema1 schema2,
    GeometryTypeConstraint___get_pydantic_core_schema__ (mkConstraint ["Point"])
      GeometryClass handler = Returns schema1
    ∧ GeometryTypeConstraint___get_pydantic_core_schema__
        (mkConstraint ["MultiPoint"; "Point"]) GeometryClass (λ _, schema1)
      = Returns schema2
    ∧ ∃ msg, validate_python schema2
               (PDict [("type", PStr "Point"); ("coordinates", PList [PInt 0; PInt 0])])
               (mkInfo PNone)
             = Raises (Builtin (mkExc AttributeError msg)).
Proof.
  destruct (stacked_constraints (mkConstraint ["Point"])
              (mkConstraint ["MultiPoint"; "Point"])
              (PDict [("type", PStr "Point"); ("coordinates", PList [PInt 0; PInt 0])])
              (mkInfo PNone)) as (schema1 & schema2 & H1 & H2 & _ & H).
  exists schema1, schema2. split; [exact H1|]. split; [exact H2|].
  apply (H PNone). injection H1 as <-. reflexivity.
Defined.

(** ** What a successful decode tells *)

(** Whenever [from_geo_json] returns, its input was a dict whose [type] is
    a string, one of the seven kind names, and the value returned wraps
    exactly the shape that [shape] returned for that same input. *)
Theorem from_geo_json_sound (value : PyVal) (g : Geometry) :
  from_geo_json value = Returns g →
  ∃ d t, value = PDict d
         ∧ dict_get d "type" = Some (PStr t)
         ∧ t ∈ _GEOMETRY_TYPES
         ∧ shape value = Returns (geom g).
Proof.
  intros Hv. pose proof (from_geo_json_inv _ _ Hv) as Hs.
  unfold from_geo_json in Hv. destruct value as [| | | | | | |d|]; try discriminate.
  destruct (dict_get d "type") as [[| | | |t| | | |]|] eqn:Ht; try discriminate.
  cbn [from_option id in_str_tuple] in Hv.
  destruct (bool_decide (t ∈ _GEOMETRY_TYPES)) eqn:Hin; [|discriminate].
  apply bool_decide_eq_true in Hin. by exists d, t.
Qed.

Lemma from_geo_json_sound_witness :
  from_geo_json (PDict [("type", PStr "MultiPoint");
                        ("coordinates", PList [PList [PInt 1; PInt 2]])])
  = Returns (mkGeometry (MultiPoint [[float_of_int 1; float_of_int 2]]))
  ∧ ∃ d t, PDict [("type", PStr "MultiPoint");
                  ("coordinates", PList [PList [PInt 1; PInt 2]])] = PDict d
           ∧ dict_get d "type" = Some (PStr t)
           ∧ t ∈ _GEOMETRY_TYPES
           ∧ shape (PDict [("type", PStr "MultiPoint");
                           ("coordinates", PList [PList [PInt 1; PInt 2]])])
             = Returns (MultiPoint [[float_of_int 1; float_of_int 2]]).
Proof.
  split; [reflexivity|].
  apply (from_geo_json_sound
           (PDict [("type", PStr "MultiPoint");
                   ("coordinates", PList [PList [PInt 1; PInt 2]])])
           (mkGeometry (MultiPoint [[float_of_int 1; float_of_int 2]]))).
  reflexivity.
Defined.
